(** * Doom-Mod-Records: the request handlers of [app.py], embedded in Rocq.

    The handlers are Flask view functions over an SQLAlchemy store.  They are
    embedded as computations in a small state-and-exception monad: the state
    holds the tables, the client's Flask session, the per-request
    global [g.user], the flashed messages and Flask's first-request flag;
    a Python exception that escapes a handler is an [inl] result. *)

From Stdlib Require Import ZArith Lia Ascii String.
From stdpp Require Import base option list strings gmap pretty.

Local Open Scope Z_scope.
Local Open Scope string_scope.

(** ** Python values *)

(** The values that reach the handlers: what [json.loads] produces, what a
    form field hands over as [.data], and what ends up in an ORM attribute.
    A float is carried as the 64-bit pattern of its double; no handler
    computes with it. *)
#[warnings="-register-all"]
Inductive pyval : Type :=
| PNone
| PBool (b : bool)
| PInt (z : Z)
| PFloat (bits : Z)
| PStr (s : string)
| PTuple (items : list pyval)
| PList (items : list pyval)
| PDict (items : list (string * pyval)).

(** Exceptions the handlers can meet.  [NotFound] is what [get_or_404]
    aborts with. *)
Inductive exn : Type :=
| KeyError (key : string)
| TypeError
| AttributeError (attr : string)
| IntegrityError
| JSONDecodeError
| NotFound.

Definition Result (A : Type) : Type := (exn + A)%type.

(** Structural equality of values, used where a query compares a column
    with a value taken from the request. *)
Fixpoint pyval_eqb (a b : pyval) {struct a} : bool :=
  let fix all2 (xs ys : list pyval) {struct xs} : bool :=
    match xs, ys with
    | [], [] => true
    | x :: xs', y :: ys' => pyval_eqb x y && all2 xs' ys'
    | _, _ => false
    end in
  let fix all2kv (xs ys : list (string * pyval)) {struct xs} : bool :=
    match xs, ys with
    | [], [] => true
    | (k, x) :: xs', (k', y) :: ys' =>
        String.eqb k k' && pyval_eqb x y && all2kv xs' ys'
    | _, _ => false
    end in
  match a, b with
  | PNone, PNone => true
  | PBool x, PBool y => Bool.eqb x y
  | PInt x, PInt y => Z.eqb x y
  | PFloat x, PFloat y => Z.eqb x y
  | PStr x, PStr y => String.eqb x y
  | PTuple xs, PTuple ys => all2 xs ys
  | PList xs, PList ys => all2 xs ys
  | PDict xs, PDict ys => all2kv xs ys
  | _, _ => false
  end.

(** Induction on values that reaches into tuples, lists and dicts. *)
Section pyval_induction.
Variable P : pyval -> Prop.
Hypothesis HNone : P PNone.
Hypothesis HBool : forall b, P (PBool b).
Hypothesis HInt : forall z, P (PInt z).
Hypothesis HFloat : forall bits, P (PFloat bits).
Hypothesis HStr : forall s, P (PStr s).
Hypothesis HTuple : forall items, Forall P items -> P (PTuple items).
Hypothesis HList : forall items, Forall P items -> P (PList items).
Hypothesis HDict : forall items, Forall (fun kv => P kv.2) items -> P (PDict items).

Fixpoint pyval_nested_ind (v : pyval) : P v :=
  let fix items_ind (l : list pyval) : Forall P l :=
    match l with
    | [] => @List.Forall_nil _ P
    | x :: l' => @List.Forall_cons _ P x l' (pyval_nested_ind x) (items_ind l')
    end in
  let fix dict_ind (l : list (string * pyval)) : Forall (fun kv => P kv.2) l :=
    match l with
    | [] => @List.Forall_nil _ _
    | kv :: l' =>
        @List.Forall_cons _ (fun kv => P kv.2) kv l' (pyval_nested_ind kv.2) (dict_ind l')
    end in
  match v with
  | PNone => HNone
  | PBool b => HBool b
  | PInt z => HInt z
  | PFloat bits => HFloat bits
  | PStr s => HStr s
  | PTuple items => HTuple items (items_ind items)
  | PList items => HList items (items_ind items)
  | PDict items => HDict items (dict_ind items)
  end.
End pyval_induction.

(** Python truth value, as [x or y] and [if x] test it.  The two zero
    doubles are [+0.0] (all bits clear) and [-0.0] (sign bit only). *)
Definition truthy (v : pyval) : bool :=
  match v with
  | PNone => false
  | PBool b => b
  | PInt z => negb (Z.eqb z 0)
  | PFloat bits => negb (Z.eqb bits 0 || Z.eqb bits (2 ^ 63))
  | PStr s => negb (String.eqb s "")
  | PTuple items | PList items => negb (Nat.eqb (length items) 0)
  | PDict items => negb (Nat.eqb (length items) 0)
  end.

(** [x or y] *)
Definition py_or (x y : pyval) : pyval := if truthy x then x else y.

(** A dict is kept as the list of its items; [d[k]] and [k in d] read the
    first item stored under [k]. *)
Fixpoint dict_get (k : string) (items : list (string * pyval)) : option pyval :=
  match items with
  | [] => None
  | (k', v) :: rest => if String.eqb k k' then Some v else dict_get k rest
  end.

Definition dict_has (k : string) (items : list (string * pyval)) : bool :=
  match dict_get k items with Some _ => true | None => false end.

(** [d[k]] for a dict: the value, or [KeyError]. *)
Definition dict_item (items : list (string * pyval)) (k : string) : Result pyval :=
  match dict_get k items with
  | Some v => inr v
  | None => inl (KeyError k)
  end.

(** [v[k]] with a string key [k]: only a dict takes one; a list, a string
    and the scalars raise [TypeError]. *)
Definition py_getitem (v : pyval) (k : string) : Result pyval :=
  match v with
  | PDict items => dict_item items k
  | _ => inl TypeError
  end.

(** [str(n)] for an int, as an f-string prints it. *)
Definition py_str_int (n : Z) : string := pretty n.

(** [None] or an int, for an ORM primary key that may not be assigned yet. *)
Definition py_id (i : option Z) : pyval :=
  match i with Some z => PInt z | None => PNone end.

(** ** Strings *)

(** [s.partition(sep)] for a one-character separator: the text before the
    first [sep], the separator, the text after it; [(s, "", "")] when [sep]
    does not occur.  Strings are byte strings here; [/] is a single byte that
    occurs inside no multi-byte UTF-8 sequence. *)
Fixpoint str_partition (sep : ascii) (s : string) : string * string * string :=
  match s with
  | EmptyString => (EmptyString, EmptyString, EmptyString)
  | String c rest =>
      if Ascii.eqb c sep then (EmptyString, String sep EmptyString, rest)
      else let '(h, m, t) := str_partition sep rest in (String c h, m, t)
  end.

(** Whether the character occurs in the string. *)
Fixpoint str_mem (c : ascii) (s : string) : bool :=
  match s with
  | EmptyString => false
  | String c' rest => Ascii.eqb c' c || str_mem c rest
  end.

Definition slash : ascii := "/"%char.

(** ** ORM objects *)

(** A [Mods] object; [mod_id] is [None] until the row has been inserted.
    The columns hold the JSON values as [create_mod] passes them on. *)
Record Mods : Type := mkMods {
  mod_id : option Z;
  mod_title : pyval;
  mod_file_id : pyval;
  mod_url : pyval;
  mod_description : pyval;
  mod_date_uploaded : pyval;
  mod_author : pyval;
  mod_category : pyval;
  mod_rating : pyval;
  mod_rating_count : pyval
}.

(** ** [create_mod] *)

Definition bindR {A B : Type} (c : Result A) (k : A -> Result B) : Result B :=
  match c with
  | inl e => inl e
  | inr a => k a
  end.

Notation "x <-R c1 ;; c2" := (bindR c1 (fun x => c2))
  (at level 100, c1 at next level, right associativity).

(** [v.partition('/')[0]]: only a string has [partition]. *)
Definition partition_head (v : pyval) : Result pyval :=
  match v with
  | PStr d => inr (PStr (str_partition slash d).1.1)
  | _ => inl (AttributeError "partition")
  end.

(** [create_mod(m_json)], lines 226-246.  The subscripts are evaluated in the
    order of the source: [dir], then [rating] and [votes] when present, then
    the keyword arguments of [Mods(...)] from left to right. *)
Definition create_mod (m_json : pyval) : Result Mods :=
  match m_json with
  | PDict items =>
      dir <-R dict_item items "dir" ;;
      category <-R partition_head dir ;;
      rating <-R (if dict_has "rating" items then dict_item items "rating"
                  else inr (PInt 0)) ;;
      votes <-R (if dict_has "votes" items then dict_item items "votes"
                 else inr (PInt 0)) ;;
      title <-R dict_item items "title" ;;
      file_id <-R dict_item items "id" ;;
      url <-R dict_item items "url" ;;
      description <-R dict_item items "description" ;;
      date <-R dict_item items "date" ;;
      author <-R dict_item items "author" ;;
      inr {| mod_id := None;
             mod_title := title;
             mod_file_id := file_id;
             mod_url := url;
             mod_description := description;
             mod_date_uploaded := date;
             mod_author := author;
             mod_category := category;
             mod_rating := rating;
             mod_rating_count := votes |}
  | _ => inl TypeError
  end.

Definition example_mod_json : pyval :=
  PDict [("id", PInt 42); ("dir", PStr "levels/doom2"); ("title", PStr "X");
         ("url", PStr "u"); ("description", PStr "d"); ("date", PStr "2020");
         ("author", PStr "a")].

(** A [Users] object.  [email] and [image_url] are attributes a handler
    assigns to, so they hold whatever Python value was assigned. *)
Record Users : Type := mkUsers {
  user_id : option Z;
  username : string;
  email : pyval;
  password : string;
  image_url : pyval
}.

(** A [Records] object: one user's tracking entry for one mod. *)
Record Records : Type := mkRecords {
  record_id : option Z;
  rec_user_id : option Z;
  rec_mod_id : Z;
  user_notes : pyval;
  user_review : pyval;
  now_playing : pyval;
  play_status : pyval
}.

(** ** The store *)

(** The rows of the three tables the handlers below touch, in insertion
    order, with the next value of each primary-key sequence. *)
Record Store : Type := mkStore {
  users : list Users;
  mods : list Mods;
  records : list Records;
  next_user_id : Z;
  next_mod_id : Z;
  next_record_id : Z
}.

Definition empty_store : Store := mkStore [] [] [] 1 1 1.

Definition opt_Z_eqb (a b : option Z) : bool :=
  match a, b with
  | Some x, Some y => Z.eqb x y
  | None, None => true
  | _, _ => false
  end.

(** [Query.first()]: the first row that passes the filter, or [None]. *)
Definition query_first {A : Type} (p : A -> bool) (rows : list A) : option A :=
  List.find p rows.

(** Number of rows that pass the filter. *)
Definition query_count {A : Type} (p : A -> bool) (rows : list A) : nat :=
  length (List.filter p rows).

(** [Query.delete()]: the rows that pass the filter are removed. *)
Definition query_delete {A : Type} (p : A -> bool) (rows : list A) : list A :=
  List.filter (fun r => negb (p r)) rows.

Definition user_has_id (i : Z) (u : Users) : bool := opt_Z_eqb (user_id u) (Some i).
Definition user_has_name (n : string) (u : Users) : bool := String.eqb (username u) n.
Definition mod_has_id (i : Z) (m : Mods) : bool := opt_Z_eqb (mod_id m) (Some i).
Definition mod_has_file_id (f : pyval) (m : Mods) : bool := pyval_eqb (mod_file_id m) f.
Definition record_has_id (i : Z) (r : Records) : bool := opt_Z_eqb (record_id r) (Some i).
Definition record_has_pair (u : option Z) (m : Z) (r : Records) : bool :=
  opt_Z_eqb (rec_user_id r) u && Z.eqb (rec_mod_id r) m.

(** ** Requests, responses and the handler state *)

Inductive Method : Type := GET | POST.

(** What a handler reads of the request: the method, the cookies, and the
    body as [json.loads(request.data)] parses it ([None] when the body is not
    JSON, in which case [json.loads] raises). *)
Record Request : Type := mkRequest {
  method : Method;
  cookies : gmap string string;
  data : option pyval
}.

(** The forms of [forms.py], as bound to the submitted fields: the [.data]
    of each field the handlers read. *)
Record RegistrationForm : Type := mkRegistrationForm {
  reg_username : string;
  reg_email : string;
  reg_password : string;
  reg_image_url : pyval
}.

Record RecordForm : Type := mkRecordForm {
  form_user_notes : pyval;
  form_user_review : pyval;
  form_now_playing : pyval;
  form_play_status : pyval
}.

Record UserEditForm : Type := mkUserEditForm {
  form_email : pyval;
  form_image_url : pyval
}.

(** A value handed to a template: a row, or the form object of the view
    (the templates render it; rendering is not part of the handlers). *)
Inductive CtxVal : Type :=
| CForm
| CRecord (r : Records)
| CUser (u : Users).

(** What a view function returns. [make_response] is the hand-built
    response of [register]: a status, a [Location] and cookies to set. *)
Inductive Response : Type :=
| redirect (location : string)
| jsonify (obj : list (string * pyval))
| render_template (template : string) (context : list (string * CtxVal))
| make_response (status : Z) (location : string) (set_cookie : list (string * string)).

Definition CURR_USER_KEY : string := "current_user".

(** The state a handler runs in.  [session] is the Flask session of the
    client that sent the request, [g_user] is [g.user], [flashes] the flashed
    messages with their categories, and [got_first_request] is Flask's flag
    that the [before_first_request] functions have run in this process. *)
Record State : Type := mkState {
  db : Store;
  session : gmap string pyval;
  g_user : option Users;
  flashes : list (string * string);
  got_first_request : bool
}.

Definition set_db (s : Store) (st : State) : State :=
  mkState s (session st) (g_user st) (flashes st) (got_first_request st).
Definition set_session (s : gmap string pyval) (st : State) : State :=
  mkState (db st) s (g_user st) (flashes st) (got_first_request st).
Definition set_g_user (u : option Users) (st : State) : State :=
  mkState (db st) (session st) u (flashes st) (got_first_request st).
Definition set_flashes (f : list (string * string)) (st : State) : State :=
  mkState (db st) (session st) (g_user st) f (got_first_request st).
Definition set_got_first_request (b : bool) (st : State) : State :=
  mkState (db st) (session st) (g_user st) (flashes st) b.

(** ** The handler monad *)

Definition M (A : Type) : Type := State -> Result A * State.

Definition ret {A : Type} (a : A) : M A := fun st => (inr a, st).

Definition bind {A B : Type} (c : M A) (k : A -> M B) : M B :=
  fun st =>
    match c st with
    | (inl e, st') => (inl e, st')
    | (inr a, st') => k a st'
    end.

Definition raise {A : Type} (e : exn) : M A := fun st => (inl e, st).

Definition lift {A : Type} (r : Result A) : M A := fun st => (r, st).

Definition gets {A : Type} (f : State -> A) : M A := fun st => (inr (f st), st).

Definition modify (f : State -> State) : M unit := fun st => (inr tt, f st).

(** [try: body except IntegrityError: handler]; any other exception goes
    through. *)
Definition try_except_IntegrityError {A : Type} (body handler : M A) : M A :=
  fun st =>
    match body st with
    | (inl IntegrityError, st') => handler st'
    | other => other
    end.

Notation "x <- c1 ;; c2" := (bind c1 (fun x => c2))
  (at level 100, c1 at next level, right associativity).
Notation "c1 ;; c2" := (bind c1 (fun _ => c2))
  (at level 100, right associativity).

(** [flash(message, category)]; the category defaults to ["message"]. *)
Definition flash (message category : string) : M unit :=
  modify (fun st => set_flashes (flashes st ++ [(message, category)]) st).

(** ** Queries *)

(** [Users.query.get(ident)]: the row with that primary key.  The session
    stores either an int or [None]; [get(None)] is [None]. *)
Definition Users_query_get (ident : pyval) : M (option Users) :=
  gets (fun st =>
    match ident with
    | PInt i => query_first (user_has_id i) (users (db st))
    | _ => None
    end).

Definition Users_query_get_or_404 (i : Z) : M Users :=
  u <- gets (fun st => query_first (user_has_id i) (users (db st))) ;;
  match u with
  | Some u => ret u
  | None => raise NotFound
  end.

Definition Users_query_first_by_username (n : string) : M (option Users) :=
  gets (fun st => query_first (user_has_name n) (users (db st))).

Definition Mods_query_first_by_file_id (f : pyval) : M (option Mods) :=
  gets (fun st => query_first (mod_has_file_id f) (mods (db st))).

Definition Records_query_first_by_id (i : Z) : M (option Records) :=
  gets (fun st => query_first (record_has_id i) (records (db st))).

Definition Records_query_get_or_404 (i : Z) : M Records :=
  r <- Records_query_first_by_id i ;;
  match r with
  | Some r => ret r
  | None => raise NotFound
  end.

(** ** Writes *)

(** Modelled from the spec: [models.py], which declares the tables, is not
    among the sources.  The spec gives [Users] a unique username, [Mods] a
    unique archive file identifier and [Records] at most one row per
    (user, mod) pair; an insert that would break one of them raises
    [IntegrityError] and leaves the store as it was, otherwise the new row
    gets the next primary key.  No other constraint is modelled: the spec has
    deletes go through unconditionally and without cascading. *)
Definition insert_user (u : Users) (s : Store) : Result (Users * Store) :=
  if existsb (user_has_name (username u)) (users s) then inl IntegrityError
  else
    let u' := mkUsers (Some (next_user_id s)) (username u) (email u)
                (password u) (image_url u) in
    inr (u', mkStore (users s ++ [u']) (mods s) (records s)
               (next_user_id s + 1) (next_mod_id s) (next_record_id s)).

(** Modelled from the spec: the INSERT of a mod, refused when a stored mod
    has the same archive file identifier. *)
Definition insert_mod (m : Mods) (s : Store) : Result (Mods * Store) :=
  if existsb (mod_has_file_id (mod_file_id m)) (mods s) then inl IntegrityError
  else
    let m' := mkMods (Some (next_mod_id s)) (mod_title m) (mod_file_id m)
                (mod_url m) (mod_description m) (mod_date_uploaded m)
                (mod_author m) (mod_category m) (mod_rating m)
                (mod_rating_count m) in
    inr (m', mkStore (users s) (mods s ++ [m']) (records s)
               (next_user_id s) (next_mod_id s + 1) (next_record_id s)).

(** Modelled from the spec: the INSERT of a record, refused when a stored
    record has the same (user, mod) pair. *)
Definition insert_record (r : Records) (s : Store) : Result (Records * Store) :=
  if existsb (record_has_pair (rec_user_id r) (rec_mod_id r)) (records s)
  then inl IntegrityError
  else
    let r' := mkRecords (Some (next_record_id s)) (rec_user_id r) (rec_mod_id r)
                (user_notes r) (user_review r) (now_playing r) (play_status r) in
    inr (r', mkStore (users s) (mods s) (records s ++ [r'])
               (next_user_id s) (next_mod_id s) (next_record_id s + 1)).

(** [db.session.add(x); db.session.commit()] for a new object [x]: the
    INSERT is flushed by the commit.  The result is [x] as it reads after the
    commit, with its primary key; on [IntegrityError] nothing is written and
    [x] itself stays as it was built. *)
Definition run_insert {A : Type} (ins : Store -> Result (A * Store)) : M A :=
  fun st =>
    match ins (db st) with
    | inl e => (inl e, st)
    | inr (a, s') => (inr a, set_db s' st)
    end.

Definition db_add_commit_user (u : Users) : M Users := run_insert (insert_user u).
Definition db_add_commit_mod (m : Mods) : M Mods := run_insert (insert_mod m).
Definition db_add_commit_record (r : Records) : M Records := run_insert (insert_record r).

(** [db.session.add(x); db.session.commit()] for a loaded object whose
    attributes were assigned to: the row with its primary key is rewritten. *)
Definition update_user (u : Users) (s : Store) : Store :=
  mkStore (map (fun r => if opt_Z_eqb (user_id r) (user_id u) then u else r) (users s))
    (mods s) (records s) (next_user_id s) (next_mod_id s) (next_record_id s).

Definition update_record (r : Records) (s : Store) : Store :=
  mkStore (users s) (mods s)
    (map (fun r0 => if opt_Z_eqb (record_id r0) (record_id r) then r else r0) (records s))
    (next_user_id s) (next_mod_id s) (next_record_id s).

(** How an assigned attribute reaches its column.  The engine of lines
    19-20 is [postgresql://], which SQLAlchemy drives with psycopg2, and
    psycopg2 writes a tuple parameter as a parenthesised list: the
    one-element tuple [(x,)] is sent as [(x)], so the column gets [x].  The
    handlers assign no other shape of tuple. *)
Fixpoint psycopg2_adapt (v : pyval) : pyval :=
  match v with
  | PTuple [x] => psycopg2_adapt x
  | _ => v
  end.

(** The values a form field hands over: strings, booleans, numbers and
    [None], no containers. *)
Definition is_scalar (v : pyval) : bool :=
  match v with
  | PTuple _ | PList _ | PDict _ => false
  | _ => true
  end.

(** The row the UPDATE writes for an object: the assigned attributes as the
    driver binds them. *)
Definition bound_user (u : Users) : Users :=
  mkUsers (user_id u) (username u) (psycopg2_adapt (email u)) (password u)
    (psycopg2_adapt (image_url u)).

Definition bound_record (r : Records) : Records :=
  mkRecords (record_id r) (rec_user_id r) (rec_mod_id r)
    (psycopg2_adapt (user_notes r)) (psycopg2_adapt (user_review r))
    (psycopg2_adapt (now_playing r)) (psycopg2_adapt (play_status r)).

Definition db_commit_user (u : Users) : M unit :=
  modify (fun st => set_db (update_user (bound_user u) (db st)) st).

Definition db_commit_record (r : Records) : M unit :=
  modify (fun st => set_db (update_record (bound_record r) (db st)) st).

(** [Mods.query.filter_by(id=i).delete()] and the same on [Records]: the
    DELETE runs at once; the handlers commit right after it. *)
Definition Mods_query_delete_by_id (i : Z) : M unit :=
  modify (fun st =>
    let s := db st in
    set_db (mkStore (users s) (query_delete (mod_has_id i) (mods s)) (records s)
              (next_user_id s) (next_mod_id s) (next_record_id s)) st).

Definition Records_query_delete_by_id (i : Z) : M unit :=
  modify (fun st =>
    let s := db st in
    set_db (mkStore (users s) (mods s) (query_delete (record_has_id i) (records s))
              (next_user_id s) (next_mod_id s) (next_record_id s)) st).

(** [db.session.commit()] after a DELETE, and [db.session.rollback()] after
    a failed INSERT: the state holds the rows as the handler's transaction
    sees them, the DELETE is already in it, the failed INSERT never was. *)
Definition db_session_commit : M unit := ret tt.
Definition db_session_rollback : M unit := ret tt.

(** ** Session *)

(** [do_login], lines 46-49. *)
Definition do_login (user : Users) : M unit :=
  modify (fun st =>
    set_session (<[CURR_USER_KEY := py_id (user_id user)]> (session st)) st).

(** [do_logout], lines 51-55. *)
Definition do_logout : M unit :=
  s <- gets session ;;
  match s !! CURR_USER_KEY with
  | Some _ => modify (fun st => set_session (delete CURR_USER_KEY (session st)) st)
  | None => ret tt
  end.

(** [check_cookies], lines 28-35, registered with [before_first_request]. *)
Definition check_cookies (req : Request) : M unit :=
  match cookies req !! "user" with
  | Some name =>
      user <- Users_query_first_by_username name ;;
      match user with
      | Some u => do_login u
      | None => ret tt
      end
  | None => do_logout
  end.

(** [global_user], lines 37-43, registered with [before_request]. *)
Definition global_user : M unit :=
  s <- gets session ;;
  match s !! CURR_USER_KEY with
  | Some ident =>
      u <- Users_query_get ident ;;
      modify (set_g_user u)
  | None => modify (set_g_user None)
  end.

(** What Flask runs before the view function of a request: the
    [before_first_request] functions if no request has been served by the
    process yet, then the [before_request] functions. *)
Definition preprocess_request (req : Request) : M unit :=
  started <- gets got_first_request ;;
  (if started : bool then ret tt
   else (check_cookies req ;; modify (set_got_first_request true))) ;;
  global_user.

(** The user a request is resolved to. *)
Definition resolve_current_user (req : Request) : M (option Users) :=
  preprocess_request req ;;
  gets g_user.

(** ** The view functions *)

Section Handlers.

(** What the handlers use of [models.py] and [forms.py], neither of which
    is among the sources: the password hash of [Users.signup], the default
    of the [image_url] column as [register] reads it
    ([Users.image_url.default.arg]) and as [edit_user] reads it
    ([Users.image_url.default.args], a value or the exception the attribute
    access raises), the column defaults of a new [Records] row, and the
    validators of the three forms. *)
Variable hash_password : string -> string.
Variable image_url_default_arg : pyval.
Variable image_url_default_args : Result pyval.
Variable default_user_notes default_user_review : pyval.
Variable default_now_playing default_play_status : pyval.
Variable RegistrationForm_validate : RegistrationForm -> bool.
Variable RecordForm_validate : RecordForm -> bool.
Variable UserEditForm_validate : UserEditForm -> bool.

(** [form.validate_on_submit()]: the request is a submission and the
    form's validators pass. *)
Definition validate_on_submit (req : Request) (valid : bool) : bool :=
  match method req with
  | POST => valid
  | GET => false
  end.

(** Modelled from the spec: [Users.signup] of [models.py] builds the user
    with the one-way hash of the raw password and adds it to the session;
    the row is written by the commit that follows. *)
Definition Users_signup (name mail raw_password : string) (image : pyval) : Users :=
  mkUsers None name (PStr mail) (hash_password raw_password) image.

(** [Records(user_id=..., mod_id=...)]. *)
Definition Records_new (uid : option Z) (mid : Z) : Records :=
  mkRecords None uid mid default_user_notes default_user_review
    default_now_playing default_play_status.

(** [register], lines 79-110. *)
Definition register (req : Request) (form : RegistrationForm) : M Response :=
  match cookies req !! "user" with
  | Some _ => ret (redirect "/search")
  | None =>
      if validate_on_submit req (RegistrationForm_validate form) then
        try_except_IntegrityError
          (let new_user :=
             Users_signup (reg_username form) (reg_email form) (reg_password form)
               (py_or (reg_image_url form) image_url_default_arg) in
           new_user <- db_add_commit_user new_user ;;
           do_login new_user ;;
           ret (make_response 302 "/search"
                  [("user", username new_user); ("password", password new_user)]))
          (flash "Username already taken" "danger" ;;
           ret (render_template "register.html" [("form", CForm)]))
      else ret (render_template "register.html" [("form", CForm)])
  end.

(** [json.loads(request.data)] *)
Definition json_loads_request_data (req : Request) : M pyval :=
  match data req with
  | Some v => ret v
  | None => raise JSONDecodeError
  end.

(** [add_mod], lines 167-191. *)
Definition add_mod (req : Request) : M Response :=
  g <- gets g_user ;;
  match g with
  | None =>
      flash "Please login to add a mod." "danger" ;;
      ret (jsonify [("status", PStr "Unauthorized access.")])
  | Some _ =>
      mod_data <- json_loads_request_data req ;;
      file_id <- lift (py_getitem mod_data "id") ;;
      mod_check <- Mods_query_first_by_file_id file_id ;;
      match mod_check with
      | Some found =>
          ret (jsonify [("status", PStr "Already pulled.");
                        ("mod_id", py_id (mod_id found))])
      | None =>
          m_json <- json_loads_request_data req ;;
          new_mod <- lift (create_mod m_json) ;;
          new_mod <- db_add_commit_mod new_mod ;;
          ret (jsonify [("status", PStr "Pulled!");
                        ("mod_id", py_id (mod_id new_mod))])
      end
  end.

(** [delete_mod], lines 217-224. *)
Definition delete_mod (mid : Z) : M Response :=
  g <- gets g_user ;;
  match g with
  | Some _ =>
      Mods_query_delete_by_id mid ;;
      flash "Mod successfully removed." "message" ;;
      db_session_commit
  | None => ret tt
  end ;;
  ret (redirect "/mods").

(** [get_record], lines 259-263. *)
Definition get_record (rid : Z) : M Response :=
  record <- Records_query_get_or_404 rid ;;
  ret (render_template "record.html" [("record", CRecord record)]).

(** [add_record], lines 265-286.  In the [except] branch [record] is still
    the object built before the commit was tried. *)
Definition add_record (mid : Z) : M Response :=
  g <- gets g_user ;;
  match g with
  | Some u =>
      let record := Records_new (user_id u) mid in
      try_except_IntegrityError
        (stored <- db_add_commit_record record ;;
         ret (jsonify [("status", PStr "Added!");
                       ("record_id", py_id (record_id stored))]))
        (db_session_rollback ;;
         ret (jsonify [("status", PStr "Already exists.");
                       ("record_id", py_id (record_id record))]))
  | None => ret (jsonify [("status", PStr "Not logged in.")])
  end.

(** [edit_record], lines 288-307.  Line 298 ends in a comma, so what is
    assigned to [user_notes] is the one-element tuple of the field's data;
    the commit writes it to the column as the driver binds it. *)
Definition edit_record (rid : Z) (req : Request) (form : RecordForm) : M Response :=
  g <- gets g_user ;;
  match g with
  | None =>
      flash "Unauthorized access." "danger" ;;
      ret (redirect ("/records/" ++ py_str_int rid))
  | Some _ =>
      record <- Records_query_get_or_404 rid ;;
      if validate_on_submit req (RecordForm_validate form) then
        let record :=
          mkRecords (record_id record) (rec_user_id record) (rec_mod_id record)
            (PTuple [form_user_notes form])
            (form_user_review form)
            (form_now_playing form)
            (form_play_status form) in
        db_commit_record record ;;
        ret (redirect ("/records/" ++ py_str_int rid))
      else
        ret (render_template "record_edit.html"
               [("form", CForm); ("record", CRecord record)])
  end.

(** [delete_record], lines 309-319.  [.first()] is [None] when no row has
    the id, and reading [.mod_id] of it raises [AttributeError]. *)
Definition delete_record (rid : Z) : M Response :=
  found <- Records_query_first_by_id rid ;;
  mid <- match found with
         | Some r => ret (rec_mod_id r)
         | None => raise (AttributeError "mod_id")
         end ;;
  g <- gets g_user ;;
  match g with
  | Some _ =>
      Records_query_delete_by_id rid ;;
      db_session_commit ;;
      flash "Record successfully deleted." "message"
  | None => flash "Unauthorized access." "message"
  end ;;
  ret (redirect ("/mods/" ++ py_str_int mid)).

(** [edit_user], lines 337-359.  The [redirect(...)] of line 346 is built
    and dropped: there is no [return] in front of it.  Line 352 ends in a
    comma, so [email] is assigned the one-element tuple of the field's data;
    the commit writes it to the column as the driver binds it. *)
Definition edit_user (uid : Z) (req : Request) (form : UserEditForm) : M Response :=
  g <- gets g_user ;;
  match g with
  | None =>
      flash "Unauthorized access." "danger" ;;
      ret (redirect ("/users/" ++ py_str_int uid))
  | Some current =>
      (if negb (opt_Z_eqb (user_id current) (Some uid))
       then flash "Unauthorized access." "danger"
       else ret tt) ;;
      user <- Users_query_get_or_404 uid ;;
      if validate_on_submit req (UserEditForm_validate form) then
        image <- (if truthy (form_image_url form)
                  then ret (form_image_url form)
                  else lift image_url_default_args) ;;
        let user :=
          mkUsers (user_id user) (username user) (PTuple [form_email form])
            (password user) image in
        db_commit_user user ;;
        ret (redirect ("/users/" ++ py_str_int uid))
      else
        ret (render_template "user_edit.html"
               [("user", CUser user); ("form", CForm)])
  end.

(** A request as Flask serves it: the before-request functions, then the
    view function. *)
Definition serve {A : Type} (req : Request) (view : M A) : M A :=
  preprocess_request req ;;
  view.

End Handlers.

(** ** Constraints of the store *)

(** The uniqueness constraints of the three tables, as the store keeps
    them: at most one row per username, per archive file identifier, per
    (user, mod) pair, and per primary key. *)
Definition unique_usernames (s : Store) : Prop :=
  forall n, (query_count (user_has_name n) (users s) <= 1)%nat.

Definition unique_file_ids (s : Store) : Prop :=
  forall f, (query_count (mod_has_file_id f) (mods s) <= 1)%nat.

Definition unique_pairs (s : Store) : Prop :=
  forall u m, (query_count (record_has_pair u m) (records s) <= 1)%nat.

Definition unique_user_ids (s : Store) : Prop :=
  forall i, (query_count (user_has_id i) (users s) <= 1)%nat.

(** The keys [create_mod] subscripts without testing for them. *)
Definition mod_keys_present (items : list (string * pyval)) : bool :=
  forallb (fun k => dict_has k items)
    ["title"; "id"; "url"; "description"; "date"; "author"].

(** The object [edit_record] hands to the commit for a form, lines
    298-301. *)
Definition edited_record (r : Records) (form : RecordForm) : Records :=
  mkRecords (record_id r) (rec_user_id r) (rec_mod_id r)
    (PTuple [form_user_notes form]) (form_user_review form)
    (form_now_playing form) (form_play_status form).

(** The record with the four fields as the form submitted them. *)
Definition submitted_record (r : Records) (form : RecordForm) : Records :=
  mkRecords (record_id r) (rec_user_id r) (rec_mod_id r)
    (form_user_notes form) (form_user_review form)
    (form_now_playing form) (form_play_status form).

(** The four field values of a record form are scalars. *)
Definition record_form_scalar (form : RecordForm) : bool :=
  is_scalar (form_user_notes form) && is_scalar (form_user_review form) &&
  is_scalar (form_now_playing form) && is_scalar (form_play_status form).

(** The object [edit_user] hands to the commit for a form, lines 352-353;
    [image] is the value of
    [form.image_url.data or Users.image_url.default.args]. *)
Definition edited_user (u : Users) (form : UserEditForm) (image : pyval) : Users :=
  mkUsers (user_id u) (username u) (PTuple [form_email form]) (password u) image.

(** ** A small installation, for the examples *)

Definition example_hash (raw : string) : string := "bcrypt:" ++ raw.

Definition example_validate {A : Type} (_ : A) : bool := true.

Definition alice : Users :=
  mkUsers (Some 1) "alice" (PStr "alice@example.org") (example_hash "a")
    (PStr "/static/alice.png").

Definition bob : Users :=
  mkUsers (Some 2) "bob" (PStr "bob@example.org") (example_hash "b")
    (PStr "/static/bob.png").

(** The mod [create_mod] makes of [example_mod_json], as stored. *)
Definition example_mod : Mods :=
  mkMods (Some 1) (PStr "X") (PInt 42) (PStr "u") (PStr "d") (PStr "2020")
    (PStr "a") (PStr "levels") (PInt 0) (PInt 0).

(** Alice's record of that mod. *)
Definition example_record : Records :=
  mkRecords (Some 1) (Some 1) 1 PNone PNone (PBool false) (PStr "Not Started").

Definition example_store : Store :=
  mkStore [alice; bob] [example_mod] [example_record] 3 2 2.

(** A later request of a client that is logged in as [u], and one of a
    client that is not logged in. *)
Definition logged_in (u : Users) : State :=
  mkState example_store {[CURR_USER_KEY := py_id (user_id u)]} (Some u) [] true.

Definition anonymous : State := mkState example_store ∅ None [] true.

(** A process that has not served a request yet, with an empty store. *)
Definition fresh_process : State := mkState empty_store ∅ None [] false.

Definition plain_post : Request := mkRequest POST ∅ None.

Definition json_post (payload : pyval) : Request := mkRequest POST ∅ (Some payload).

(** A request of a client that has no session but still holds the
    username cookie. *)
Definition cookie_request (name : string) : Request :=
  mkRequest GET {["user" := name]} None.

Definition alice_registration : RegistrationForm :=
  mkRegistrationForm "alice" "alice@example.org" "a" (PStr "").

Definition great_review : RecordForm :=
  mkRecordForm (PStr "finished on UV") (PStr "great") (PBool true) (PStr "Completed").

Definition mallory_edit : UserEditForm :=
  mkUserEditForm (PStr "mallory@example.org") (PStr "/static/mallory.png").

(** The end-to-end scenario: alice registers (which logs her in), imports
    [example_mod_json], attaches a record of the new mod, edits it with the
    review ["great"], and fetches it. *)
Definition end_to_end : M Response :=
  serve plain_post
    (register example_hash (PStr "/static/default.png") example_validate
       plain_post alice_registration) ;;
  serve (json_post example_mod_json) (add_mod (json_post example_mod_json)) ;;
  serve plain_post (add_record PNone PNone (PBool false) (PStr "Not Started") 1) ;;
  serve plain_post (edit_record example_validate 1 plain_post great_review) ;;
  serve (mkRequest GET ∅ None) (get_record 1).

(** ** The other view functions *)

(** The login form of [forms.py], as bound to the submitted fields. *)
Record LoginForm : Type := mkLoginForm {
  login_username : string;
  login_password : string
}.

(** The response [logout] builds by hand: a status, the [Location] (the
    request's referrer, which may be missing) and the cookies to delete. *)
Record LogoutResponse : Type := mkLogoutResponse {
  logout_status : Z;
  logout_location : option string;
  logout_delete_cookie : list string
}.

(** What the listing views hand to their templates. *)
Inductive PageVal : Type :=
| PvMod (m : option Mods)
| PvRecords (rs : list Records)
| PvUsers (us : list Users).

Inductive Page : Type :=
| page (template : string) (context : list (string * PageVal)).

(** Modelled from the spec: [u.records], the relationship of [models.py]
    from a user to the records that reference it. *)
Definition user_records (u : Users) (rs : list Records) : list Records :=
  List.filter (fun r => opt_Z_eqb (rec_user_id r) (user_id u)) rs.

(** [l != []] *)
Definition nonempty {A : Type} (l : list A) : bool :=
  match l with [] => false | _ :: _ => true end.

Section MoreHandlers.

(** [Users.authenticate] of [models.py], which is not among the sources:
    a function of the users table and the submitted credentials that returns
    a user or nothing.  The validators of the login form and the column
    defaults of a new [Records] row are taken as before. *)
Variable Users_authenticate : list Users -> string -> string -> option Users.
Variable LoginForm_validate : LoginForm -> bool.
Variable default_user_notes default_user_review : pyval.
Variable default_now_playing default_play_status : pyval.

(** [login], lines 112-137. *)
Definition login (req : Request) (form : LoginForm) : M Response :=
  match cookies req !! "user" with
  | Some _ => ret (redirect "/search")
  | None =>
      if validate_on_submit req (LoginForm_validate form) then
        user <- gets (fun st =>
                  Users_authenticate (users (db st))
                    (login_username form) (login_password form)) ;;
        match user with
        | Some u =>
            do_login u ;;
            flash ("Welcome, " ++ username u ++ "!") "success" ;;
            ret (make_response 302 "/search"
                   [("user", username u); ("password", password u)])
        | None =>
            flash "Invalid credentials." "danger" ;;
            ret (render_template "login.html" [("form", CForm)])
        end
      else ret (render_template "login.html" [("form", CForm)])
  end.

(** [logout], lines 139-153. *)
Definition logout (referrer : option string) : M LogoutResponse :=
  do_logout ;;
  flash "You have been successfully logged out." "message" ;;
  ret (mkLogoutResponse 302 referrer ["user"; "password"]).

(** [login_status], lines 155-162. *)
Definition login_status : M Response :=
  s <- gets session ;;
  match s !! CURR_USER_KEY with
  | Some _ => ret (jsonify [("status", PStr "True")])
  | None => ret (jsonify [("status", PStr "False")])
  end.

(** [get_mod], lines 199-215.  The mod is looked up with [get], so a
    missing mod is [None] in the template and not a 404. *)
Definition get_mod (mid : Z) (req : Request) : M Page :=
  found <- gets (fun st => query_first (mod_has_id mid) (mods (db st))) ;;
  match method req with
  | POST =>
      g <- gets g_user ;;
      match g with
      | Some u =>
          let record :=
            Records_new default_user_notes default_user_review
              default_now_playing default_play_status (user_id u) mid in
          try_except_IntegrityError
            (db_add_commit_record record ;;
             flash "Mod successfully added!" "message")
            (flash "This mod is already in your records." "message" ;;
             db_session_rollback)
      | None => ret tt
      end
  | GET => ret tt
  end ;;
  ret (page "mod.html" [("mod", PvMod found)]).

(** [record_list], lines 251-257. *)
Definition record_list : M Page :=
  all_records <- gets (fun st => records (db st)) ;;
  all_users <- gets (fun st => users (db st)) ;;
  let with_records :=
    List.filter (fun u => nonempty (user_records u all_records)) all_users in
  ret (page "records.html"
         [("records", PvRecords all_records); ("users", PvUsers with_records)]).

End MoreHandlers.

(** ** The routes *)

(** The routes of the view functions embedded here, with what the URL and
    the submitted form give the view. *)
Inductive Route : Type :=
| route_register (form : RegistrationForm)
| route_login (form : LoginForm)
| route_logout (referrer : option string)
| route_login_status
| route_add_mod
| route_get_mod (mid : Z)
| route_delete_mod (mid : Z)
| route_record_list
| route_get_record (rid : Z)
| route_add_record (mid : Z)
| route_edit_record (rid : Z) (form : RecordForm)
| route_delete_record (rid : Z)
| route_edit_user (uid : Z) (form : UserEditForm).

(** The [methods] of each [@app.route]; a route without them takes GET. *)
Definition route_allows (route : Route) (m : Method) : bool :=
  match route, m with
  | route_register _, _ => true
  | route_login _, _ => true
  | route_logout _, GET => true
  | route_login_status, GET => true
  | route_add_mod, POST => true
  | route_get_mod _, _ => true
  | route_delete_mod _, POST => true
  | route_record_list, GET => true
  | route_get_record _, GET => true
  | route_add_record _, POST => true
  | route_edit_record _ _, _ => true
  | route_delete_record _, POST => true
  | route_edit_user _ _, _ => true
  | _, _ => false
  end.

Section Application.

Variable hash_password : string -> string.
Variable image_url_default_arg : pyval.
Variable image_url_default_args : Result pyval.
Variable default_user_notes default_user_review : pyval.
Variable default_now_playing default_play_status : pyval.
Variable RegistrationForm_validate : RegistrationForm -> bool.
Variable RecordForm_validate : RecordForm -> bool.
Variable UserEditForm_validate : UserEditForm -> bool.
Variable Users_authenticate : list Users -> string -> string -> option Users.
Variable LoginForm_validate : LoginForm -> bool.

(** The state the view function of a route leaves behind, after the
    before-request functions; what the view returns or raises goes to the
    client. *)
Definition handle_view (req : Request) (route : Route) (st : State) : State :=
  match route with
  | route_register form =>
      (serve req (register hash_password image_url_default_arg
                    RegistrationForm_validate req form) st).2
  | route_login form =>
      (serve req (login Users_authenticate LoginForm_validate req form) st).2
  | route_logout referrer => (serve req (logout referrer) st).2
  | route_login_status => (serve req login_status st).2
  | route_add_mod => (serve req (add_mod req) st).2
  | route_get_mod mid =>
      (serve req (get_mod default_user_notes default_user_review
                    default_now_playing default_play_status mid req) st).2
  | route_delete_mod mid => (serve req (delete_mod mid) st).2
  | route_record_list => (serve req record_list st).2
  | route_get_record rid => (serve req (get_record rid) st).2
  | route_add_record mid =>
      (serve req (add_record default_user_notes default_user_review
                    default_now_playing default_play_status mid) st).2
  | route_edit_record rid form =>
      (serve req (edit_record RecordForm_validate rid req form) st).2
  | route_delete_record rid => (serve req (delete_record rid) st).2
  | route_edit_user uid form =>
      (serve req (edit_user image_url_default_args UserEditForm_validate
                    uid req form) st).2
  end.

(** The state a request leaves behind.  Flask runs the before-request
    functions also when the route does not take the method, and then answers
    405 without calling the view. *)
Definition handle (req : Request) (route : Route) (st : State) : State :=
  if route_allows route (method req) then handle_view req route st
  else (preprocess_request req st).2.

(** A sequence of requests, served one after the other. *)
Fixpoint handle_all (reqs : list (Request * Route)) (st : State) : State :=
  match reqs with
  | [] => st
  | (req, route) :: rest => handle_all rest (handle req route st)
  end.

End Application.

(** ** Well-formed stores *)

(** Every row has a primary key below the next value of the sequence. *)
Definition ids_below {A : Type} (key : A -> option Z) (next : Z) (rows : list A) : Prop :=
  Forall (fun r => exists i, key r = Some i /\ i < next) rows.

Definition unique_mod_ids (s : Store) : Prop :=
  forall i, (query_count (mod_has_id i) (mods s) <= 1)%nat.

Definition unique_record_ids (s : Store) : Prop :=
  forall i, (query_count (record_has_id i) (records s) <= 1)%nat.

(** The store as the database keeps it: the uniqueness constraints hold,
    primary keys are unique and were handed out by the sequences. *)
Record store_ok (s : Store) : Prop := mk_store_ok {
  ok_usernames : unique_usernames s;
  ok_file_ids : unique_file_ids s;
  ok_pairs : unique_pairs s;
  ok_user_ids : unique_user_ids s;
  ok_mod_ids : unique_mod_ids s;
  ok_record_ids : unique_record_ids s;
  ok_users_below : ids_below user_id (next_user_id s) (users s);
  ok_mods_below : ids_below mod_id (next_mod_id s) (mods s);
  ok_records_below : ids_below record_id (next_record_id s) (records s)
}.




(** What one request can do to the store: nothing, one INSERT that
    the constraints let through, one DELETE by primary key, or one UPDATE of
    the row of a primary key that keeps its key, its username or its
    (user, mod) pair. *)
Inductive store_step (s : Store) : Store -> Prop :=
| step_same : store_step s s
| step_insert_user (u u' : Users) (s' : Store) :
    insert_user u s = inr (u', s') -> store_step s s'
| step_insert_mod (m m' : Mods) (s' : Store) :
    insert_mod m s = inr (m', s') -> store_step s s'
| step_insert_record (r r' : Records) (s' : Store) :
    insert_record r s = inr (r', s') -> store_step s s'
| step_delete_mod (i : Z) :
    store_step s
      (mkStore (users s) (query_delete (mod_has_id i) (mods s)) (records s)
         (next_user_id s) (next_mod_id s) (next_record_id s))
| step_delete_record (i : Z) :
    store_step s
      (mkStore (users s) (mods s) (query_delete (record_has_id i) (records s))
         (next_user_id s) (next_mod_id s) (next_record_id s))
| step_update_user (i : Z) (old new : Users) :
    query_first (user_has_id i) (users s) = Some old ->
    user_id new = user_id old ->
    username new = username old ->
    store_step s (update_user new s)
| step_update_record (i : Z) (old new : Records) :
    query_first (record_has_id i) (records s) = Some old ->
    record_id new = record_id old ->
    rec_user_id new = rec_user_id old ->
    rec_mod_id new = rec_mod_id old ->
    store_step s (update_record new s).

(** A stand-in for [Users.authenticate] in the examples: the user of that
    name, if the stored hash is the hash of the password. *)
Definition example_authenticate (rows : list Users) (name raw : string) : option Users :=
  match query_first (user_has_name name) rows with
  | Some u => if String.eqb (password u) (example_hash raw) then Some u else None
  | None => None
  end.

(** The application on the small installation. *)
Definition example_handle_all : list (Request * Route) -> State -> State :=
  handle_all example_hash (PStr "/static/default.png") (inl (AttributeError "args"))
    PNone PNone (PBool false) (PStr "Not Started")
    example_validate example_validate example_validate
    example_authenticate example_validate.


Definition example_register : Request -> RegistrationForm -> M Response :=
  register example_hash (PStr "/static/default.png") example_validate.

Definition example_login : Request -> LoginForm -> M Response :=
  login example_authenticate example_validate.

Definition example_add_record : Z -> M Response :=
  add_record PNone PNone (PBool false) (PStr "Not Started").

Definition example_get_mod : Z -> Request -> M Page :=
  get_mod PNone PNone (PBool false) (PStr "Not Started").

Definition example_edit_user : Z -> Request -> UserEditForm -> M Response :=
  edit_user (inl (AttributeError "args")) example_validate.

Definition example_edit_record : Z -> Request -> RecordForm -> M Response :=
  edit_record example_validate.

Definition plain_get : Request := mkRequest GET ∅ None.

Definition alice_login : LoginForm := mkLoginForm "alice" "a".

Definition alice_wrong_password : LoginForm := mkLoginForm "alice" "b".

Definition carol_registration : RegistrationForm :=
  mkRegistrationForm "carol" "carol@example.org" "c" (PStr "").

(** A second search result, with a rating and votes. *)
Definition other_mod_json : pyval :=
  PDict [("id", PInt 43); ("dir", PStr "themes/"); ("title", PStr "Y");
         ("url", PStr "v"); ("description", PStr "e"); ("date", PStr "2021");
         ("author", PStr "b"); ("rating", PInt 4); ("votes", PInt 12)].

(** * Properties *)

(** ** Strings and values *)

Lemma str_partition_at_first (sep : ascii) (pre rest : string) :
  str_mem sep pre = false ->
  str_partition sep (pre ++ String sep rest) = (pre, String sep EmptyString, rest).
Proof.
  induction pre as [|c pre IH]; simpl; intros Hmem.
  - by rewrite Ascii.eqb_refl.
  - apply orb_false_iff in Hmem as [Hc Hpre].
    rewrite Hc, (IH Hpre). reflexivity.
Qed.

Lemma str_partition_no_sep (sep : ascii) (s : string) :
  str_mem sep s = false ->
  str_partition sep s = (s, EmptyString, EmptyString).
Proof.
  induction s as [|c s IH]; simpl; intros Hmem; [reflexivity|].
  apply orb_false_iff in Hmem as [Hc Hs].
  rewrite Hc, (IH Hs). reflexivity.
Qed.

Lemma dict_has_get (k : string) (items : list (string * pyval)) :
  dict_has k items = true -> exists v, dict_get k items = Some v.
Proof. unfold dict_has. destruct (dict_get k items); eauto; discriminate. Qed.

Lemma dict_item_has (k : string) (items : list (string * pyval)) :
  dict_has k items = true -> exists v, dict_item items k = inr v.
Proof.
  intros [v Hv]%dict_has_get. exists v. unfold dict_item. by rewrite Hv.
Qed.

(** ** Equality of values *)


Lemma pyval_eqb_true (a b : pyval) : pyval_eqb a b = true -> a = b.
Proof.
  revert b. induction a as [| | | | |xs IH|xs IH|xs IH] using pyval_nested_ind;
    intros [| | | | |ys|ys|ys]; simpl; try discriminate; intros H.
  - reflexivity.
  - f_equal. by apply Bool.eqb_prop.
  - f_equal. by apply Z.eqb_eq.
  - f_equal. by apply Z.eqb_eq.
  - f_equal. by apply String.eqb_eq.
  - f_equal. revert ys H.
    induction IH as [|x xs Hx _ IHxs]; intros [|y ys]; try discriminate.
    + reflexivity.
    + intros [Hxy Hrest]%andb_true_iff. f_equal; [by apply Hx|by apply IHxs].
  - f_equal. revert ys H.
    induction IH as [|x xs Hx _ IHxs]; intros [|y ys]; try discriminate.
    + reflexivity.
    + intros [Hxy Hrest]%andb_true_iff. f_equal; [by apply Hx|by apply IHxs].
  - f_equal. revert ys H.
    induction IH as [|[k x] xs Hx _ IHxs]; intros [|[k' y] ys]; try discriminate.
    + reflexivity.
    + intros [[Hk Hxy]%andb_true_iff Hrest]%andb_true_iff.
      apply String.eqb_eq in Hk. subst k'.
      f_equal; [f_equal; by apply Hx|by apply IHxs].
Qed.

Lemma pyval_eqb_refl (a : pyval) : pyval_eqb a a = true.
Proof.
  induction a as [| | | | |xs IH|xs IH|xs IH] using pyval_nested_ind; simpl.
  - reflexivity.
  - apply Bool.eqb_reflx.
  - apply Z.eqb_refl.
  - apply Z.eqb_refl.
  - apply String.eqb_refl.
  - induction IH as [|x xs Hx _ IHxs]; [reflexivity|]. by rewrite Hx, IHxs.
  - induction IH as [|x xs Hx _ IHxs]; [reflexivity|]. by rewrite Hx, IHxs.
  - induction IH as [|[k x] xs Hx _ IHxs]; [reflexivity|].
    simpl in Hx. by rewrite String.eqb_refl, Hx, IHxs.
Qed.

Lemma pyval_eqb_eq (a b : pyval) : pyval_eqb a b = true <-> a = b.
Proof. split; [apply pyval_eqb_true|intros ->; apply pyval_eqb_refl]. Qed.

Lemma opt_Z_eqb_eq (a b : option Z) : opt_Z_eqb a b = true <-> a = b.
Proof.
  destruct a as [x|], b as [y|]; simpl; try (split; [discriminate|congruence]).
  - rewrite Z.eqb_eq. split; congruence.
  - split; reflexivity.
Qed.

(** ** [create_mod] *)

(** [create_mod] returns a mod exactly when the object has the keys it
    subscripts and [dir] is a string. *)
Lemma create_mod_returns (items : list (string * pyval)) (d : string) :
  dict_get "dir" items = Some (PStr d) ->
  mod_keys_present items = true ->
  exists m, create_mod (PDict items) = inr m /\
    mod_id m = None /\
    mod_category m = PStr (str_partition slash d).1.1 /\
    mod_rating m = (if dict_has "rating" items
                    then default (PInt 0) (dict_get "rating" items) else PInt 0) /\
    mod_rating_count m = (if dict_has "votes" items
                          then default (PInt 0) (dict_get "votes" items) else PInt 0) /\
    Some (mod_file_id m) = dict_get "id" items.
Proof.
  intros Hdir Hkeys. unfold mod_keys_present in Hkeys. simpl in Hkeys.
  repeat (apply andb_true_iff in Hkeys as [?%dict_has_get Hkeys]).
  repeat match goal with H : exists _, _ |- _ => destruct H as [? ?] end.
  unfold create_mod, dict_item, dict_has. rewrite Hdir. simpl.
  repeat match goal with H : dict_get _ items = Some _ |- _ => rewrite H; clear H end.
  destruct (dict_get "rating" items), (dict_get "votes" items); simpl;
    eexists; repeat split; reflexivity.
Qed.

(** C8: for a search-result object that has the keys of a mod, and whose
    [dir] is [pre/rest] with no separator in [pre], [create_mod] returns a
    mod of category [pre]; its rating is 0 when the object has no [rating]
    key and its rating count is 0 when the object has no [votes] key. *)
Theorem create_mod_category_and_defaults
    (items : list (string * pyval)) (pre rest : string) :
  dict_get "dir" items = Some (PStr (pre ++ String slash rest)) ->
  str_mem slash pre = false ->
  mod_keys_present items = true ->
  exists m, create_mod (PDict items) = inr m /\
    mod_category m = PStr pre /\
    (dict_has "rating" items = false -> mod_rating m = PInt 0) /\
    (dict_has "votes" items = false -> mod_rating_count m = PInt 0).
Proof.
  intros Hdir Hpre Hkeys.
  destruct (create_mod_returns items _ Hdir Hkeys)
    as (m & Hm & _ & Hcat & Hrating & Hvotes & _).
  exists m. split; [exact Hm|]. split.
  - rewrite Hcat, (str_partition_at_first _ _ _ Hpre). reflexivity.
  - split; intros Habs.
    + rewrite Hrating, Habs. reflexivity.
    + rewrite Hvotes, Habs. reflexivity.
Qed.

(** A directory without a separator is the category as it stands. *)
Lemma create_mod_category_no_separator (items : list (string * pyval)) (d : string) :
  dict_get "dir" items = Some (PStr d) ->
  str_mem slash d = false ->
  mod_keys_present items = true ->
  exists m, create_mod (PDict items) = inr m /\ mod_category m = PStr d.
Proof.
  intros Hdir Hd Hkeys.
  destruct (create_mod_returns items _ Hdir Hkeys) as (m & Hm & _ & Hcat & _).
  exists m. split; [exact Hm|].
  rewrite Hcat, (str_partition_no_sep _ _ Hd). reflexivity.
Qed.

(** A key the object lacks makes [create_mod] raise, as does anything but
    an object. *)
Lemma create_mod_missing_dir (items : list (string * pyval)) :
  dict_get "dir" items = None -> create_mod (PDict items) = inl (KeyError "dir").
Proof. intros H. unfold create_mod, dict_item. rewrite H. reflexivity. Qed.

Example create_mod_example :
  create_mod example_mod_json =
  inr (mkMods None (PStr "X") (PInt 42) (PStr "u") (PStr "d") (PStr "2020")
         (PStr "a") (PStr "levels") (PInt 0) (PInt 0)).
Proof. reflexivity. Qed.

Example py_str_int_example : py_str_int 42 = "42" /\ py_str_int (-7) = "-7".
Proof. split; vm_compute; reflexivity. Qed.

(** ** Queries *)

Ltac run_handler :=
  unfold bind, ret, raise, lift, gets, modify, flash, try_except_IntegrityError,
    run_insert in *; simpl in *.

Lemma query_first_delete {A : Type} (p : A -> bool) (rows : list A) :
  query_first p (query_delete p rows) = None.
Proof.
  unfold query_first, query_delete.
  induction rows as [|r rows IH]; simpl; [reflexivity|].
  destruct (p r) eqn:Hp; simpl; [exact IH|]. by rewrite Hp.
Qed.

Lemma query_count_delete {A : Type} (p : A -> bool) (rows : list A) :
  query_count p (query_delete p rows) = 0%nat.
Proof.
  unfold query_count, query_delete.
  induction rows as [|r rows IH]; simpl; [reflexivity|].
  destruct (p r) eqn:Hp; simpl; [exact IH|]. by rewrite Hp.
Qed.

Lemma query_first_None {A : Type} (p : A -> bool) (rows : list A) :
  query_first p rows = None <-> Forall (fun r => p r = false) rows.
Proof.
  unfold query_first. induction rows as [|r rows IH]; simpl.
  - split; [constructor|reflexivity].
  - destruct (p r) eqn:Hp.
    + split; [discriminate|]. intros H. inversion H; congruence.
    + rewrite IH. split; [by constructor|]. intros H. by inversion H.
Qed.

Lemma query_first_Some {A : Type} (p : A -> bool) (rows : list A) (r : A) :
  query_first p rows = Some r -> In r rows /\ p r = true.
Proof. apply List.find_some. Qed.

Lemma query_first_count {A : Type} (p : A -> bool) (rows : list A) (r : A) :
  query_first p rows = Some r -> (1 <= query_count p rows)%nat.
Proof.
  unfold query_first, query_count.
  induction rows as [|r0 rows IH]; simpl; [discriminate|].
  destruct (p r0); simpl; [lia|exact IH].
Qed.

Lemma query_count_existsb {A : Type} (p : A -> bool) (rows : list A) :
  existsb p rows = true <-> (1 <= query_count p rows)%nat.
Proof.
  unfold query_count. induction rows as [|r rows IH]; simpl.
  - split; [discriminate|lia].
  - destruct (p r); simpl; [split; [lia|reflexivity]|exact IH].
Qed.

Lemma query_count_zero_existsb {A : Type} (p : A -> bool) (rows : list A) :
  query_count p rows = 0%nat <-> existsb p rows = false.
Proof.
  pose proof (query_count_existsb p rows) as H.
  destruct (existsb p rows); split; intros H0; try reflexivity; try discriminate.
  - assert (1 <= query_count p rows)%nat by (by apply H). lia.
  - destruct (query_count p rows) eqn:Hc; [reflexivity|].
    assert (true = false) by (symmetry; apply H; lia). discriminate.
Qed.

Lemma query_count_app {A : Type} (p : A -> bool) (xs ys : list A) :
  query_count p (xs ++ ys) = (query_count p xs + query_count p ys)%nat.
Proof. unfold query_count. by rewrite List.filter_app, length_app. Qed.

(** ** [delete_record] *)

(** C10: when no row has the record id, [delete_record] raises the
    [AttributeError] of [None.mod_id] before it looks at [g.user]: the result
    is the same for a logged-in and for an anonymous caller, nothing is
    flashed and no row is touched. *)
Theorem delete_record_missing_raises (rid : Z) (st : State) :
  Forall (fun r => record_id r <> Some rid) (records (db st)) ->
  delete_record rid st = (inl (AttributeError "mod_id"), st).
Proof.
  intros Hnone.
  assert (Hfirst : query_first (record_has_id rid) (records (db st)) = None).
  { apply query_first_None. eapply Forall_impl; [exact Hnone|].
    intros r Hr. simpl in Hr. unfold record_has_id.
    destruct (record_id r) as [i|]; simpl; [|reflexivity].
    apply Z.eqb_neq. congruence. }
  unfold delete_record, Records_query_first_by_id. run_handler.
  rewrite Hfirst. reflexivity.
Qed.

(** C9: when the lookup finds the record, [delete_record] answers with a
    redirect to the page of the mod that record pointed to; for a logged-in
    caller the rows with that id are gone from the store the redirect is
    issued in, and every other row is still there. *)
Theorem delete_record_redirects_to_mod (rid : Z) (st : State) (r : Records) :
  query_first (record_has_id rid) (records (db st)) = Some r ->
  exists st',
    delete_record rid st = (inr (redirect ("/mods/" ++ py_str_int (rec_mod_id r))), st') /\
    (is_Some (g_user st) ->
       records (db st') = query_delete (record_has_id rid) (records (db st)) /\
       query_first (record_has_id rid) (records (db st')) = None) /\
    (g_user st = None -> db st' = db st).
Proof.
  intros Hfirst.
  unfold delete_record, Records_query_first_by_id, Records_query_delete_by_id,
    db_session_commit.
  run_handler. rewrite Hfirst. simpl.
  destruct (g_user st) as [u|] eqn:Hg; simpl; eexists; (split; [reflexivity|]); simpl.
  - split; [|discriminate]. intros _. split; [reflexivity|apply query_first_delete].
  - split; [intros [? ?]; discriminate|reflexivity].
Qed.

Lemma query_count_In {A : Type} (p : A -> bool) (rows : list A) (r : A) :
  In r rows -> p r = true -> (1 <= query_count p rows)%nat.
Proof.
  intros Hin Hp. apply query_count_existsb, existsb_exists. eauto.
Qed.

Lemma query_first_unique {A : Type} (p : A -> bool) (rows : list A) (r : A) :
  (query_count p rows <= 1)%nat -> In r rows -> p r = true ->
  query_first p rows = Some r.
Proof.
  unfold query_first, query_count.
  induction rows as [|r0 rows IH]; simpl; intros Hle Hin Hp; [contradiction|].
  destruct (p r0) eqn:Hp0; simpl in Hle.
  - destruct Hin as [->|Hin]; [reflexivity|].
    pose proof (query_count_In p rows r Hin Hp) as Hge.
    unfold query_count in Hge. lia.
  - destruct Hin as [->|Hin]; [congruence|]. by apply IH.
Qed.

(** ** [add_mod] *)

(** C3: a logged-in call whose payload carries a file identifier that a
    stored mod already has returns ["Already pulled."] with the id of that
    mod and leaves the whole state as it was, so no row is created and the
    store still holds exactly one mod with that file identifier. *)
Theorem add_mod_already_imported
    (req : Request) (st : State) (u : Users) (payload file_id : pyval) (m : Mods) :
  g_user st = Some u ->
  data req = Some payload ->
  py_getitem payload "id" = inr file_id ->
  In m (mods (db st)) ->
  mod_file_id m = file_id ->
  unique_file_ids (db st) ->
  add_mod req st =
    (inr (jsonify [("status", PStr "Already pulled."); ("mod_id", py_id (mod_id m))]), st) /\
  query_count (mod_has_file_id file_id) (mods (db st)) = 1%nat.
Proof.
  intros Hg Hdata Hid Hin Hfile Huniq.
  assert (Hp : mod_has_file_id file_id m = true).
  { unfold mod_has_file_id. rewrite Hfile. apply pyval_eqb_refl. }
  pose proof (query_first_unique _ _ _ (Huniq file_id) Hin Hp) as Hfirst.
  split.
  - unfold add_mod, json_loads_request_data, Mods_query_first_by_file_id.
    run_handler. rewrite Hg, Hdata. simpl. rewrite Hid. simpl.
    rewrite Hfirst. reflexivity.
  - pose proof (Huniq file_id). pose proof (query_first_count _ _ _ Hfirst). lia.
Qed.

Lemma query_first_app_new {A : Type} (p : A -> bool) (rows : list A) (r : A) :
  query_count p rows = 0%nat -> p r = true -> query_first p (rows ++ [r]) = Some r.
Proof.
  unfold query_first, query_count.
  induction rows as [|r0 rows IH]; simpl; intros Hzero Hp.
  - by rewrite Hp.
  - destruct (p r0); simpl in Hzero; [discriminate|]. by apply IH.
Qed.

(** A payload whose file identifier no stored mod has: the mod that
    [create_mod] makes of it is inserted and its new id returned. *)
Lemma add_mod_new
    (req : Request) (st : State) (u : Users) (payload file_id : pyval) (m : Mods) :
  g_user st = Some u ->
  data req = Some payload ->
  py_getitem payload "id" = inr file_id ->
  create_mod payload = inr m ->
  mod_file_id m = file_id ->
  query_count (mod_has_file_id file_id) (mods (db st)) = 0%nat ->
  add_mod req st =
    (inr (jsonify [("status", PStr "Pulled!"); ("mod_id", PInt (next_mod_id (db st)))]),
     set_db (mkStore (users (db st))
               (mods (db st) ++
                  [mkMods (Some (next_mod_id (db st))) (mod_title m) (mod_file_id m)
                     (mod_url m) (mod_description m) (mod_date_uploaded m)
                     (mod_author m) (mod_category m) (mod_rating m)
                     (mod_rating_count m)])
               (records (db st)) (next_user_id (db st)) (next_mod_id (db st) + 1)
               (next_record_id (db st))) st).
Proof.
  intros Hg Hdata Hid Hm Hfile Hfree.
  assert (Hnone : query_first (mod_has_file_id file_id) (mods (db st)) = None).
  { destruct (query_first _ _) eqn:E; [|reflexivity].
    apply query_first_count in E. lia. }
  apply query_count_zero_existsb in Hfree.
  unfold add_mod, json_loads_request_data, Mods_query_first_by_file_id,
    db_add_commit_mod, insert_mod.
  run_handler. rewrite Hg, Hdata. simpl. rewrite Hid. simpl.
  rewrite Hnone. simpl. rewrite Hm. simpl. rewrite Hfile, Hfree. reflexivity.
Qed.

(** X25: importing one object twice: the first call creates the mod, the second
    answers ["Already pulled."] with the id the first one returned, and one
    mod has that file identifier. *)
Lemma add_mod_twice
    (req : Request) (st : State) (u : Users)
    (items : list (string * pyval)) (d : string) (file_id : pyval) :
  g_user st = Some u ->
  data req = Some (PDict items) ->
  dict_get "dir" items = Some (PStr d) ->
  mod_keys_present items = true ->
  dict_get "id" items = Some file_id ->
  query_count (mod_has_file_id file_id) (mods (db st)) = 0%nat ->
  exists st1,
    add_mod req st =
      (inr (jsonify [("status", PStr "Pulled!");
                     ("mod_id", PInt (next_mod_id (db st)))]), st1) /\
    add_mod req st1 =
      (inr (jsonify [("status", PStr "Already pulled.");
                     ("mod_id", PInt (next_mod_id (db st)))]), st1) /\
    query_count (mod_has_file_id file_id) (mods (db st1)) = 1%nat.
Proof.
  intros Hg Hdata Hdir Hkeys Hid Hfree.
  destruct (create_mod_returns items d Hdir Hkeys) as (m & Hm & _ & _ & _ & _ & Hfile).
  rewrite Hid in Hfile. injection Hfile as Hfile.
  assert (Hget : py_getitem (PDict items) "id" = inr file_id).
  { unfold py_getitem, dict_item. by rewrite Hid. }
  pose proof (add_mod_new req st u _ file_id m Hg Hdata Hget Hm Hfile Hfree) as Hfirst.
  eexists. split; [exact Hfirst|].
  match type of Hfirst with _ = (_, ?st1) => set (st1' := st1) end.
  assert (Hp : mod_has_file_id file_id
                 (mkMods (Some (next_mod_id (db st))) (mod_title m) (mod_file_id m)
                    (mod_url m) (mod_description m) (mod_date_uploaded m)
                    (mod_author m) (mod_category m) (mod_rating m)
                    (mod_rating_count m)) = true).
  { unfold mod_has_file_id. simpl. rewrite Hfile. apply pyval_eqb_refl. }
  split.
  - unfold add_mod, json_loads_request_data, Mods_query_first_by_file_id.
    run_handler. rewrite Hg, Hdata. simpl. unfold dict_item. rewrite Hid. simpl.
    rewrite (query_first_app_new _ _ _ Hfree Hp). reflexivity.
  - simpl. rewrite query_count_app, Hfree. unfold query_count. simpl.
    by rewrite Hp.
Qed.

(** ** [register] *)

Section Register.
Variable hash_password : string -> string.
Variable image_url_default_arg : pyval.
Variable RegistrationForm_validate : RegistrationForm -> bool.

Local Abbreviation register' :=
  (register hash_password image_url_default_arg RegistrationForm_validate).

(** The row [register] writes for a form, once the store has numbered it. *)
Local Abbreviation stored_user form s :=
  (mkUsers (Some (next_user_id s)) (reg_username form) (PStr (reg_email form))
     (hash_password (reg_password form))
     (py_or (reg_image_url form) image_url_default_arg)).

(** A valid submission with a free username writes the row, logs the new
    user in and sets the two cookies. *)
Lemma register_free_username (req : Request) (form : RegistrationForm) (st : State) :
  cookies req !! "user" = None ->
  method req = POST ->
  RegistrationForm_validate form = true ->
  query_count (user_has_name (reg_username form)) (users (db st)) = 0%nat ->
  exists st',
    register' req form st =
      (inr (make_response 302 "/search"
              [("user", reg_username form);
               ("password", hash_password (reg_password form))]), st') /\
    users (db st') = (users (db st) ++ [stored_user form (db st)])%list /\
    mods (db st') = mods (db st) /\
    records (db st') = records (db st) /\
    session st' !! CURR_USER_KEY = Some (PInt (next_user_id (db st))).
Proof.
  intros Hcookie Hpost Hvalid Hfree.
  apply query_count_zero_existsb in Hfree.
  unfold register, validate_on_submit, db_add_commit_user, insert_user,
    do_login, Users_signup.
  rewrite Hcookie, Hpost, Hvalid. run_handler. rewrite Hfree. simpl.
  eexists. split; [reflexivity|]. simpl.
  repeat split; try reflexivity. apply lookup_insert_eq.
Qed.

(** A valid submission with a username that is taken flashes the notice,
    shows the form again and writes nothing. *)
Lemma register_taken_username (req : Request) (form : RegistrationForm) (st : State) :
  cookies req !! "user" = None ->
  method req = POST ->
  RegistrationForm_validate form = true ->
  (1 <= query_count (user_has_name (reg_username form)) (users (db st)))%nat ->
  register' req form st =
    (inr (render_template "register.html" [("form", CForm)]),
     set_flashes (flashes st ++ [("Username already taken", "danger")]) st).
Proof.
  intros Hcookie Hpost Hvalid Htaken.
  apply query_count_existsb in Htaken.
  unfold register, validate_on_submit, db_add_commit_user, insert_user,
    do_login, Users_signup.
  rewrite Hcookie, Hpost, Hvalid. run_handler. rewrite Htaken. reflexivity.
Qed.

(** C4: two valid registration submissions with one username, the first
    made while the username is free.  The first is answered with the redirect
    that sets the cookies and writes the user's row; the second, in whatever
    session it is made, is answered with the form and the notice that the
    username is taken, and the store it leaves is the store it found, with
    exactly one row of that username. *)
Theorem register_twice
    (req1 req2 : Request) (form1 form2 : RegistrationForm) (st1 : State) :
  cookies req1 !! "user" = None -> method req1 = POST ->
  RegistrationForm_validate form1 = true ->
  cookies req2 !! "user" = None -> method req2 = POST ->
  RegistrationForm_validate form2 = true ->
  reg_username form2 = reg_username form1 ->
  query_count (user_has_name (reg_username form1)) (users (db st1)) = 0%nat ->
  exists st1',
    register' req1 form1 st1 =
      (inr (make_response 302 "/search"
              [("user", reg_username form1);
               ("password", hash_password (reg_password form1))]), st1') /\
    query_count (user_has_name (reg_username form1)) (users (db st1')) = 1%nat /\
    forall st2, db st2 = db st1' ->
      exists st2',
        register' req2 form2 st2 =
          (inr (render_template "register.html" [("form", CForm)]), st2') /\
        flashes st2' = (flashes st2 ++ [("Username already taken", "danger")])%list /\
        db st2' = db st1' /\
        query_count (user_has_name (reg_username form1)) (users (db st2')) = 1%nat.
Proof.
  intros Hc1 Hp1 Hv1 Hc2 Hp2 Hv2 Hname Hfree.
  destruct (register_free_username req1 form1 st1 Hc1 Hp1 Hv1 Hfree)
    as (st1' & Hrun & Husers & _).
  assert (Hone : query_count (user_has_name (reg_username form1)) (users (db st1')) = 1%nat).
  { rewrite Husers, query_count_app, Hfree. unfold query_count, user_has_name. simpl.
    by rewrite String.eqb_refl. }
  exists st1'. split; [exact Hrun|]. split; [exact Hone|].
  intros st2 Hdb. eexists. split.
  - apply register_taken_username; try assumption. rewrite Hname, Hdb, Hone. lia.
  - simpl. rewrite Hdb. auto.
Qed.

End Register.

(** ** Resolving the current user *)

(** Once the process has served a request, only the session decides. *)
Lemma resolve_current_user_later_request (req : Request) (st : State) :
  got_first_request st = true ->
  resolve_current_user req st =
    match session st !! CURR_USER_KEY with
    | Some (PInt i) =>
        let u := query_first (user_has_id i) (users (db st)) in
        (inr u, set_g_user u st)
    | _ => (inr None, set_g_user None st)
    end.
Proof.
  intros Hstarted.
  unfold resolve_current_user, preprocess_request, global_user, Users_query_get.
  run_handler. rewrite Hstarted. simpl.
  destruct (session st !! CURR_USER_KEY) as [[]|]; reflexivity.
Qed.

(** C5, as the code has it: take a request that carries the username
    cookie of an existing user and comes without a session binding.  As the
    first request the process serves it is resolved to that user, without a
    password, and the session is bound to the user's id; as any later request
    it is anonymous and the session stays unbound. *)
Theorem resolve_current_user_cookie
    (req : Request) (st : State) (name : string) (u : Users) (i : Z) :
  cookies req !! "user" = Some name ->
  query_first (user_has_name name) (users (db st)) = Some u ->
  user_id u = Some i ->
  unique_user_ids (db st) ->
  session st !! CURR_USER_KEY = None ->
  ((resolve_current_user req (set_got_first_request false st)).1 = inr (Some u) /\
   session (resolve_current_user req (set_got_first_request false st)).2
     !! CURR_USER_KEY = Some (PInt i)) /\
  ((resolve_current_user req (set_got_first_request true st)).1 = inr None /\
   session (resolve_current_user req (set_got_first_request true st)).2
     !! CURR_USER_KEY = None).
Proof.
  intros Hcookie Hfound Hid Huniq Hsession. split.
  - pose proof (query_first_Some _ _ _ Hfound) as [Hin _].
    assert (Hget : query_first (user_has_id i) (users (db st)) = Some u).
    { apply query_first_unique; [apply Huniq|exact Hin|].
      unfold user_has_id. rewrite Hid. apply opt_Z_eqb_eq. reflexivity. }
    unfold resolve_current_user, preprocess_request, check_cookies, global_user,
      Users_query_first_by_username, Users_query_get, do_login.
    run_handler. rewrite Hcookie. simpl. rewrite Hfound. simpl.
    rewrite Hid. simpl. rewrite lookup_insert_eq. simpl.
    rewrite Hget. simpl. split; [reflexivity|apply lookup_insert_eq].
  - rewrite resolve_current_user_later_request by reflexivity.
    simpl. rewrite Hsession. simpl. split; [reflexivity|exact Hsession].
Qed.

(** ** [delete_mod] *)

(** Without a logged-in user [delete_mod] removes nothing, flashes nothing
    and answers with the same redirect as after a delete. *)
Lemma delete_mod_anonymous (mid : Z) (st : State) :
  g_user st = None ->
  delete_mod mid st = (inr (redirect "/mods"), st).
Proof.
  intros Hg. unfold delete_mod. run_handler. rewrite Hg. reflexivity.
Qed.

(** With a logged-in user, whoever it is, the rows with that id are removed
    and the other rows stay. *)
Lemma delete_mod_logged_in (mid : Z) (st : State) (u : Users) :
  g_user st = Some u ->
  exists st',
    delete_mod mid st = (inr (redirect "/mods"), st') /\
    mods (db st') = query_delete (mod_has_id mid) (mods (db st)) /\
    query_first (mod_has_id mid) (mods (db st')) = None /\
    records (db st') = records (db st) /\
    flashes st' = (flashes st ++ [("Mod successfully removed.", "message")])%list.
Proof.
  intros Hg. unfold delete_mod, Mods_query_delete_by_id, db_session_commit.
  run_handler. rewrite Hg. simpl. eexists. split; [reflexivity|]. simpl.
  repeat split. apply query_first_delete.
Qed.

(** ** [add_record] *)

Section AddRecord.
Variable default_user_notes default_user_review : pyval.
Variable default_now_playing default_play_status : pyval.

Local Abbreviation add_record' :=
  (add_record default_user_notes default_user_review
     default_now_playing default_play_status).

(** A pair that is not tracked yet gets a row, and the response carries the
    primary key of that row. *)
Lemma add_record_new_pair (mid : Z) (st : State) (u : Users) :
  g_user st = Some u ->
  query_count (record_has_pair (user_id u) mid) (records (db st)) = 0%nat ->
  exists st',
    add_record' mid st =
      (inr (jsonify [("status", PStr "Added!");
                     ("record_id", PInt (next_record_id (db st)))]), st') /\
    query_count (record_has_pair (user_id u) mid) (records (db st')) = 1%nat /\
    query_first (record_has_id (next_record_id (db st))) (records (db st')) <> None.
Proof.
  intros Hg Hfree. pose proof Hfree as Hex. apply query_count_zero_existsb in Hex.
  unfold add_record, db_add_commit_record, insert_record, Records_new.
  run_handler. rewrite Hg. simpl. rewrite Hex. simpl.
  eexists. split; [reflexivity|]. simpl. split.
  - rewrite query_count_app, Hfree. unfold query_count, record_has_pair. simpl.
    assert (opt_Z_eqb (user_id u) (user_id u) = true) as -> by by apply opt_Z_eqb_eq.
    by rewrite Z.eqb_refl.
  - intros Hnone. apply query_first_None in Hnone.
    apply Forall_app in Hnone as [_ Hlast]. inversion Hlast as [|? ? Hp _]; subst.
    unfold record_has_id in Hp. simpl in Hp. by rewrite Z.eqb_refl in Hp.
Qed.

(** A pair that is tracked already: the insert fails, nothing is written,
    and the [record_id] of the response is the id of the object that was not
    inserted, which is [None]. *)
Lemma add_record_existing_pair (mid : Z) (st : State) (u : Users) :
  g_user st = Some u ->
  (1 <= query_count (record_has_pair (user_id u) mid) (records (db st)))%nat ->
  add_record' mid st =
    (inr (jsonify [("status", PStr "Already exists."); ("record_id", PNone)]), st).
Proof.
  intros Hg Htaken. apply query_count_existsb in Htaken.
  unfold add_record, db_add_commit_record, insert_record, Records_new,
    db_session_rollback.
  run_handler. rewrite Hg. simpl. rewrite Htaken. reflexivity.
Qed.

Lemma add_record_anonymous (mid : Z) (st : State) :
  g_user st = None ->
  add_record' mid st = (inr (jsonify [("status", PStr "Not logged in.")]), st).
Proof. intros Hg. unfold add_record. run_handler. rewrite Hg. reflexivity. Qed.

End AddRecord.

(** ** [edit_record] *)

Lemma query_first_update {A : Type} (p : A -> bool) (rows : list A) (r r' : A) :
  query_first p rows = Some r -> p r' = true ->
  query_first p (map (fun r0 => if p r0 then r' else r0) rows) = Some r'.
Proof.
  unfold query_first. induction rows as [|r0 rows IH]; simpl; [discriminate|].
  intros Hfirst Hp'. destruct (p r0) eqn:Hp0; simpl.
  - by rewrite Hp'.
  - rewrite Hp0. by apply IH.
Qed.

Lemma update_record_first (r' : Records) (s : Store) (rid : Z) (r : Records) :
  query_first (record_has_id rid) (records s) = Some r ->
  record_id r' = Some rid ->
  query_first (record_has_id rid) (records (update_record r' s)) = Some r'.
Proof.
  intros Hfound Hid. unfold update_record. simpl. rewrite Hid.
  apply (query_first_update (record_has_id rid) _ r r' Hfound).
  unfold record_has_id. rewrite Hid. by apply opt_Z_eqb_eq.
Qed.

Lemma get_record_found (rid : Z) (st : State) (r : Records) :
  query_first (record_has_id rid) (records (db st)) = Some r ->
  get_record rid st = (inr (render_template "record.html" [("record", CRecord r)]), st).
Proof.
  intros Hfound. unfold get_record, Records_query_get_or_404, Records_query_first_by_id.
  run_handler. rewrite Hfound. reflexivity.
Qed.

Lemma get_record_missing (rid : Z) (st : State) :
  query_first (record_has_id rid) (records (db st)) = None ->
  get_record rid st = (inl NotFound, st).
Proof.
  intros Hnone. unfold get_record, Records_query_get_or_404, Records_query_first_by_id.
  run_handler. rewrite Hnone. reflexivity.
Qed.

Lemma psycopg2_adapt_scalar (v : pyval) :
  is_scalar v = true -> psycopg2_adapt v = v.
Proof. destruct v; simpl; try reflexivity; discriminate. Qed.

Lemma psycopg2_adapt_singleton (v : pyval) :
  is_scalar v = true -> psycopg2_adapt (PTuple [v]) = v.
Proof. simpl. apply psycopg2_adapt_scalar. Qed.

Lemma bound_edited_record (r : Records) (form : RecordForm) :
  record_form_scalar form = true ->
  bound_record (edited_record r form) = submitted_record r form.
Proof.
  unfold record_form_scalar. intros Hscalar.
  apply andb_true_iff in Hscalar as [Hscalar Hstatus].
  apply andb_true_iff in Hscalar as [Hscalar Hplaying].
  apply andb_true_iff in Hscalar as [Hnotes Hreview].
  unfold bound_record, edited_record, submitted_record. cbn [record_id rec_user_id
    rec_mod_id user_notes user_review now_playing play_status].
  rewrite (psycopg2_adapt_singleton _ Hnotes), (psycopg2_adapt_scalar _ Hreview),
    (psycopg2_adapt_scalar _ Hplaying), (psycopg2_adapt_scalar _ Hstatus).
  reflexivity.
Qed.

Section EditRecord.
Variable RecordForm_validate : RecordForm -> bool.

Local Abbreviation edit_record' := (edit_record RecordForm_validate).

(** A valid submission by a logged-in user rewrites the row in one
    commit. *)
Lemma edit_record_valid
    (rid : Z) (req : Request) (form : RecordForm) (st : State) (u : Users) (r : Records) :
  g_user st = Some u ->
  query_first (record_has_id rid) (records (db st)) = Some r ->
  validate_on_submit req (RecordForm_validate form) = true ->
  edit_record' rid req form st =
    (inr (redirect ("/records/" ++ py_str_int rid)),
     set_db (update_record (bound_record (edited_record r form)) (db st)) st).
Proof.
  intros Hg Hfound Hvalid.
  unfold edit_record, Records_query_get_or_404, Records_query_first_by_id,
    db_commit_record.
  run_handler. rewrite Hg. simpl. rewrite Hfound. simpl. rewrite Hvalid. reflexivity.
Qed.

Lemma get_record_after_update (rid : Z) (st : State) (r r' : Records) :
  query_first (record_has_id rid) (records (db st)) = Some r ->
  record_id r' = record_id r ->
  get_record rid (set_db (update_record r' (db st)) st) =
    (inr (render_template "record.html" [("record", CRecord r')]),
     set_db (update_record r' (db st)) st).
Proof.
  intros Hfound Hid. apply get_record_found. simpl.
  apply (update_record_first _ _ _ r); [exact Hfound|].
  pose proof (query_first_Some _ _ _ Hfound) as [_ Hrid].
  apply opt_Z_eqb_eq in Hrid. congruence.
Qed.

(** C6: for an existing record, a logged-in caller and a form of scalar
    field values.  If the submission validates, [edit_record] rewrites the
    row in one commit with exactly the submitted notes, review, now-playing
    flag and play status, and the record page then shows them; if it does
    not, the form is shown again and nothing in the state has changed. *)
Theorem edit_record_overwrites_fields
    (rid : Z) (req : Request) (form : RecordForm) (st : State) (u : Users) (r : Records) :
  g_user st = Some u ->
  query_first (record_has_id rid) (records (db st)) = Some r ->
  record_form_scalar form = true ->
  if validate_on_submit req (RecordForm_validate form) then
    exists st',
      edit_record' rid req form st =
        (inr (redirect ("/records/" ++ py_str_int rid)), st') /\
      db st' =
        update_record
          (mkRecords (record_id r) (rec_user_id r) (rec_mod_id r)
             (form_user_notes form) (form_user_review form)
             (form_now_playing form) (form_play_status form)) (db st) /\
      get_record rid st' =
        (inr (render_template "record.html"
                [("record",
                  CRecord (mkRecords (record_id r) (rec_user_id r) (rec_mod_id r)
                             (form_user_notes form) (form_user_review form)
                             (form_now_playing form) (form_play_status form)))]),
         st')
  else
    edit_record' rid req form st =
      (inr (render_template "record_edit.html"
              [("form", CForm); ("record", CRecord r)]), st).
Proof.
  intros Hg Hfound Hscalar.
  destruct (validate_on_submit req (RecordForm_validate form)) eqn:Hvalid.
  - rewrite (edit_record_valid rid req form st u r Hg Hfound Hvalid).
    rewrite (bound_edited_record r form Hscalar).
    eexists. split; [reflexivity|]. split; [reflexivity|].
    by apply (get_record_after_update rid st r).
  - unfold edit_record, Records_query_get_or_404, Records_query_first_by_id.
    run_handler. rewrite Hg. simpl. rewrite Hfound. simpl. rewrite Hvalid. reflexivity.
Qed.

(** X23: ownership is not checked.  A logged-in user who does not own a
    record can edit it with a valid form of scalar field values: the row is
    rewritten with the submitted notes, review, now-playing flag and play
    status, the record page shows them, and the record stays the owner's. *)
Lemma edit_record_then_get_record
    (rid : Z) (req : Request) (form : RecordForm) (st : State) (u : Users) (r : Records) :
  g_user st = Some u ->
  rec_user_id r <> user_id u ->
  query_first (record_has_id rid) (records (db st)) = Some r ->
  method req = POST ->
  RecordForm_validate form = true ->
  record_form_scalar form = true ->
  exists st',
    edit_record' rid req form st = (inr (redirect ("/records/" ++ py_str_int rid)), st') /\
    db st' = update_record (submitted_record r form) (db st) /\
    get_record rid st' =
      (inr (render_template "record.html"
              [("record", CRecord (submitted_record r form))]), st') /\
    rec_user_id (submitted_record r form) = rec_user_id r.
Proof.
  intros Hg _ Hfound Hpost Hvalid Hscalar.
  assert (Hsubmit : validate_on_submit req (RecordForm_validate form) = true).
  { unfold validate_on_submit. by rewrite Hpost. }
  rewrite (edit_record_valid rid req form st u r Hg Hfound Hsubmit).
  rewrite (bound_edited_record r form Hscalar).
  eexists. split; [reflexivity|]. split; [reflexivity|]. split; [|reflexivity].
  by apply (get_record_after_update rid st r).
Qed.

(** X24: a submission that does not validate, and a GET, leave every row
    and the rest of the state as they were. *)
Lemma edit_record_not_validated
    (rid : Z) (req : Request) (form : RecordForm) (st : State) (u : Users) (r : Records) :
  g_user st = Some u ->
  query_first (record_has_id rid) (records (db st)) = Some r ->
  validate_on_submit req (RecordForm_validate form) = false ->
  edit_record' rid req form st =
    (inr (render_template "record_edit.html" [("form", CForm); ("record", CRecord r)]), st).
Proof.
  intros Hg Hfound Hinvalid.
  unfold edit_record, Records_query_get_or_404, Records_query_first_by_id.
  run_handler. rewrite Hg. simpl. rewrite Hfound. simpl. rewrite Hinvalid. reflexivity.
Qed.

End EditRecord.

(** ** [edit_user] *)

Section EditUser.
Variable image_url_default_args : Result pyval.
Variable UserEditForm_validate : UserEditForm -> bool.

Local Abbreviation edit_user' := (edit_user image_url_default_args UserEditForm_validate).

(** An anonymous request is turned away before anything is read or
    written. *)
Lemma edit_user_anonymous (uid : Z) (req : Request) (form : UserEditForm) (st : State) :
  g_user st = None ->
  edit_user' uid req form st =
    (inr (redirect ("/users/" ++ py_str_int uid)),
     set_flashes (flashes st ++ [("Unauthorized access.", "danger")]) st).
Proof. intros Hg. unfold edit_user. run_handler. rewrite Hg. reflexivity. Qed.

(** The owner's valid submission rewrites the owner's row. *)
Lemma edit_user_owner
    (uid : Z) (req : Request) (form : UserEditForm) (st : State) (owner : Users) :
  g_user st = Some owner ->
  user_id owner = Some uid ->
  query_first (user_has_id uid) (users (db st)) = Some owner ->
  method req = POST ->
  UserEditForm_validate form = true ->
  truthy (form_image_url form) = true ->
  edit_user' uid req form st =
    (inr (redirect ("/users/" ++ py_str_int uid)),
     set_db (update_user (bound_user (edited_user owner form (form_image_url form)))
               (db st)) st).
Proof.
  intros Hg Hid Hfound Hpost Hvalid Himage.
  unfold edit_user, Users_query_get_or_404, validate_on_submit, db_commit_user.
  run_handler. rewrite Hg. simpl. rewrite Hid. simpl. rewrite Z.eqb_refl. simpl.
  rewrite Hfound. simpl. rewrite Hpost, Hvalid, Himage. reflexivity.
Qed.

(** A logged-in user who is not the owner is told ["Unauthorized access."],
    and the handler goes on: a valid submission rewrites the target's row
    all the same. *)
Lemma edit_user_other_identity
    (uid : Z) (req : Request) (form : UserEditForm) (st : State) (current target : Users) :
  g_user st = Some current ->
  user_id current <> Some uid ->
  query_first (user_has_id uid) (users (db st)) = Some target ->
  method req = POST ->
  UserEditForm_validate form = true ->
  truthy (form_image_url form) = true ->
  edit_user' uid req form st =
    (inr (redirect ("/users/" ++ py_str_int uid)),
     set_db (update_user (bound_user (edited_user target form (form_image_url form)))
               (db st))
       (set_flashes (flashes st ++ [("Unauthorized access.", "danger")]) st)).
Proof.
  intros Hg Hother Hfound Hpost Hvalid Himage.
  assert (Hneq : opt_Z_eqb (user_id current) (Some uid) = false).
  { destruct (opt_Z_eqb (user_id current) (Some uid)) eqn:E; [|reflexivity].
    by apply opt_Z_eqb_eq in E. }
  unfold edit_user, Users_query_get_or_404, validate_on_submit, db_commit_user.
  run_handler. rewrite Hg. simpl. rewrite Hneq. simpl.
  rewrite Hfound. simpl. rewrite Hpost, Hvalid, Himage. reflexivity.
Qed.

End EditUser.

(** ** The constraints are kept by the writes *)

Lemma insert_user_unique_usernames (u u' : Users) (s s' : Store) :
  unique_usernames s -> insert_user u s = inr (u', s') -> unique_usernames s'.
Proof.
  unfold insert_user. intros Huniq.
  destruct (existsb _ _) eqn:Hex; [discriminate|].
  intros [= <- <-] n. simpl. rewrite query_count_app.
  apply query_count_zero_existsb in Hex.
  unfold query_count at 2. simpl. unfold user_has_name at 2. simpl.
  destruct (String.eqb (username u) n) eqn:Hn; simpl.
  - apply String.eqb_eq in Hn. subst n. rewrite Hex. lia.
  - pose proof (Huniq n). lia.
Qed.

Lemma insert_mod_unique_file_ids (m m' : Mods) (s s' : Store) :
  unique_file_ids s -> insert_mod m s = inr (m', s') -> unique_file_ids s'.
Proof.
  unfold insert_mod. intros Huniq.
  destruct (existsb _ _) eqn:Hex; [discriminate|].
  intros [= <- <-] f. simpl. rewrite query_count_app.
  apply query_count_zero_existsb in Hex.
  unfold query_count at 2. simpl. unfold mod_has_file_id at 2. simpl.
  destruct (pyval_eqb (mod_file_id m) f) eqn:Hf; simpl.
  - apply pyval_eqb_true in Hf. subst f. rewrite Hex. lia.
  - pose proof (Huniq f). lia.
Qed.

Lemma insert_record_unique_pairs (r r' : Records) (s s' : Store) :
  unique_pairs s -> insert_record r s = inr (r', s') -> unique_pairs s'.
Proof.
  unfold insert_record. intros Huniq.
  destruct (existsb _ _) eqn:Hex; [discriminate|].
  intros [= <- <-] u m. simpl. rewrite query_count_app.
  apply query_count_zero_existsb in Hex.
  unfold query_count at 2. simpl. unfold record_has_pair at 2. simpl.
  destruct (opt_Z_eqb (rec_user_id r) u && Z.eqb (rec_mod_id r) m) eqn:Hp; simpl.
  - apply andb_true_iff in Hp as [Hu%opt_Z_eqb_eq Hm%Z.eqb_eq]. subst u m.
    rewrite Hex. lia.
  - pose proof (Huniq u m). lia.
Qed.

Lemma query_count_delete_le {A : Type} (p q : A -> bool) (rows : list A) :
  (query_count p (query_delete q rows) <= query_count p rows)%nat.
Proof.
  unfold query_count, query_delete.
  induction rows as [|r rows IH]; simpl; [lia|].
  destruct (q r), (p r) eqn:Hp; simpl; rewrite ?Hp; simpl; lia.
Qed.

Lemma empty_store_unique :
  unique_usernames empty_store /\ unique_file_ids empty_store /\
  unique_pairs empty_store /\ unique_user_ids empty_store.
Proof. repeat split; intros ?; try intros ?; simpl; unfold query_count; simpl; lia. Qed.

Lemma example_store_unique :
  unique_usernames example_store /\ unique_file_ids example_store /\
  unique_pairs example_store /\ unique_user_ids example_store.
Proof.
  repeat split.
  - intros n. unfold query_count, user_has_name. cbn -[String.eqb].
    destruct (String.eqb "alice" n) eqn:Ha, (String.eqb "bob" n) eqn:Hb;
      cbn -[String.eqb]; try lia.
    apply String.eqb_eq in Ha, Hb. congruence.
  - intros f. unfold query_count. simpl. destruct (mod_has_file_id f example_mod); simpl; lia.
  - intros u m. unfold query_count. simpl.
    destruct (record_has_pair u m example_record); simpl; lia.
  - intros i. unfold query_count, user_has_id. cbn -[Z.eqb].
    destruct (Z.eqb 1 i) eqn:H1, (Z.eqb 2 i) eqn:H2; cbn -[Z.eqb]; lia.
Qed.

(** ** The properties on the small installation *)

(** [create_mod] on the object of the end-to-end scenario: the category is
    ["levels"], rating and rating count are 0. *)
Lemma create_mod_category_and_defaults_witness :
  exists m, create_mod example_mod_json = inr m /\
    mod_category m = PStr "levels" /\
    (dict_has "rating"
       [("id", PInt 42); ("dir", PStr "levels/doom2"); ("title", PStr "X");
        ("url", PStr "u"); ("description", PStr "d"); ("date", PStr "2020");
        ("author", PStr "a")] = false -> mod_rating m = PInt 0) /\
    (dict_has "votes"
       [("id", PInt 42); ("dir", PStr "levels/doom2"); ("title", PStr "X");
        ("url", PStr "u"); ("description", PStr "d"); ("date", PStr "2020");
        ("author", PStr "a")] = false -> mod_rating_count m = PInt 0).
Proof.
  apply (create_mod_category_and_defaults _ "levels" "doom2"); reflexivity.
Defined.

(** Importing [example_mod_json] again while logged in as alice. *)
Lemma add_mod_already_imported_witness :
  add_mod (json_post example_mod_json) (logged_in alice) =
    (inr (jsonify [("status", PStr "Already pulled."); ("mod_id", PInt 1)]),
     logged_in alice) /\
  query_count (mod_has_file_id (PInt 42)) (mods (db (logged_in alice))) = 1%nat.
Proof.
  apply (add_mod_already_imported (json_post example_mod_json) (logged_in alice)
           alice example_mod_json (PInt 42) example_mod).
  - reflexivity.
  - reflexivity.
  - reflexivity.
  - simpl. left. reflexivity.
  - reflexivity.
  - intros f. unfold query_count. simpl.
    destruct (mod_has_file_id f example_mod); simpl; lia.
Defined.

(** Alice registers on a fresh installation, and then someone registers as
    alice again. *)
Lemma register_twice_witness :
  exists st1',
    register example_hash (PStr "/static/default.png") example_validate
      plain_post alice_registration fresh_process =
      (inr (make_response 302 "/search"
              [("user", "alice"); ("password", example_hash "a")]), st1') /\
    query_count (user_has_name "alice") (users (db st1')) = 1%nat /\
    forall st2, db st2 = db st1' ->
      exists st2',
        register example_hash (PStr "/static/default.png") example_validate
          plain_post alice_registration st2 =
          (inr (render_template "register.html" [("form", CForm)]), st2') /\
        flashes st2' = (flashes st2 ++ [("Username already taken", "danger")])%list /\
        db st2' = db st1' /\
        query_count (user_has_name "alice") (users (db st2')) = 1%nat.
Proof.
  apply (register_twice example_hash (PStr "/static/default.png") example_validate
           plain_post plain_post alice_registration alice_registration fresh_process);
    reflexivity.
Defined.

(** Alice's cookie without a session, on the first request of a process
    and on a later one. *)
Lemma resolve_current_user_cookie_witness :
  ((resolve_current_user (cookie_request "alice")
      (set_got_first_request false anonymous)).1 = inr (Some alice) /\
   session (resolve_current_user (cookie_request "alice")
              (set_got_first_request false anonymous)).2
     !! CURR_USER_KEY = Some (PInt 1)) /\
  ((resolve_current_user (cookie_request "alice")
      (set_got_first_request true anonymous)).1 = inr None /\
   session (resolve_current_user (cookie_request "alice")
              (set_got_first_request true anonymous)).2
     !! CURR_USER_KEY = None).
Proof.
  apply (resolve_current_user_cookie (cookie_request "alice") anonymous "alice" alice 1).
  - reflexivity.
  - reflexivity.
  - reflexivity.
  - intros i. unfold query_count, user_has_id. cbn -[Z.eqb].
    destruct (Z.eqb 1 i) eqn:H1, (Z.eqb 2 i) eqn:H2; cbn -[Z.eqb]; lia.
  - reflexivity.
Defined.

(** C5 as stated fails: on a request that is not the first one of the
    process, a client without a session binding that holds alice's cookie is
    anonymous. *)
Lemma resolve_current_user_cookie_counterexample :
  ~ (forall (req : Request) (st : State) (name : string) (u : Users),
       session st !! CURR_USER_KEY = None ->
       cookies req !! "user" = Some name ->
       query_first (user_has_name name) (users (db st)) = Some u ->
       (resolve_current_user req st).1 = inr (Some u)).
Proof.
  intros Hclaim.
  specialize (Hclaim (cookie_request "alice") anonymous "alice" alice
                eq_refl eq_refl eq_refl).
  vm_compute in Hclaim. discriminate.
Qed.

(** Deleting alice's record of mod 1. *)
Lemma delete_record_redirects_to_mod_witness :
  exists st',
    delete_record 1 (logged_in alice) = (inr (redirect "/mods/1"), st') /\
    (is_Some (g_user (logged_in alice)) ->
       records (db st') =
         query_delete (record_has_id 1) (records (db (logged_in alice))) /\
       query_first (record_has_id 1) (records (db st')) = None) /\
    (g_user (logged_in alice) = None -> db st' = db (logged_in alice)).
Proof.
  apply (delete_record_redirects_to_mod 1 (logged_in alice) example_record).
  reflexivity.
Defined.

(** Deleting a record that does not exist, as alice. *)
Lemma delete_record_missing_raises_witness :
  delete_record 7 (logged_in alice) = (inl (AttributeError "mod_id"), logged_in alice).
Proof.
  apply (delete_record_missing_raises 7 (logged_in alice)).
  simpl. repeat constructor. discriminate.
Defined.

(** The same, anonymously. *)
Example delete_record_missing_anonymous :
  delete_record 7 anonymous = (inl (AttributeError "mod_id"), anonymous).
Proof. vm_compute. reflexivity. Qed.

(** ** Where the handlers part from the specification *)

(** C1: bob, logged in, posts a valid edit form to alice's profile.  He is
    flashed ["Unauthorized access."], and alice's row is rewritten with his
    values all the same: line 346 builds the redirect and does not return
    it. *)
Theorem edit_user_other_identity_overwrites :
  exists st',
    edit_user (inl (AttributeError "args")) example_validate
      1 plain_post mallory_edit (logged_in bob) =
      (inr (redirect "/users/1"), st') /\
    flashes st' = [("Unauthorized access.", "danger")] /\
    users (db st') =
      [mkUsers (Some 1) "alice" (PStr "mallory@example.org")
         (example_hash "a") (PStr "/static/mallory.png");
       bob].
Proof. eexists. vm_compute. repeat split. Qed.

(** C2: alice, who has a record of mod 1 with id 1, attaches mod 1 again.
    The store is left as it was and the status is ["Already exists."], but
    the [record_id] of the response is [None], not 1: it is read from the
    object whose insert failed. *)
Theorem add_record_again_surfaces_no_id :
  add_record PNone PNone (PBool false) (PStr "Not Started") 1 (logged_in alice) =
    (inr (jsonify [("status", PStr "Already exists."); ("record_id", PNone)]),
     logged_in alice) /\
  query_first (record_has_pair (Some 1) 1) (records (db (logged_in alice))) =
    Some example_record /\
  record_id example_record = Some 1.
Proof. vm_compute. repeat split. Qed.

(** C7: an anonymous delete of mod 1 removes nothing, and nothing tells the
    caller so: no message is flashed, and the response is the redirect to
    [/mods] that a logged-in caller gets after the delete. *)
Theorem delete_mod_anonymous_not_reported :
  delete_mod 1 anonymous = (inr (redirect "/mods"), anonymous) /\
  flashes anonymous = [] /\
  (delete_mod 1 (logged_in alice)).1 = inr (redirect "/mods").
Proof. vm_compute. repeat split. Qed.

(** The end-to-end scenario: the fetched record shows the review
    ["great"]. *)
Example end_to_end_shows_review :
  exists r st,
    end_to_end fresh_process =
      (inr (render_template "record.html" [("record", CRecord r)]), st) /\
    user_review r = PStr "great" /\
    mod_category <$> mods (db st) = [PStr "levels"].
Proof. do 2 eexists. vm_compute. repeat split. Qed.

(** * Further properties *)

(** ** Well-formed stores are kept *)

Lemma query_count_filter_le {A : Type} (p q : A -> bool) (rows : list A) :
  (query_count p (List.filter q rows) <= query_count p rows)%nat.
Proof.
  unfold query_count.
  induction rows as [|r rows IH]; simpl; [lia|].
  destruct (q r), (p r) eqn:Hp; simpl; rewrite ?Hp; simpl; lia.
Qed.

Lemma query_count_map {A : Type} (p : A -> bool) (g : A -> A) (rows : list A) :
  (forall r, In r rows -> p (g r) = p r) ->
  query_count p (map g rows) = query_count p rows.
Proof.
  unfold query_count. induction rows as [|r rows IH]; simpl; intros Hg; [reflexivity|].
  rewrite (Hg r) by (by left). destruct (p r); simpl; rewrite IH; auto.
Qed.

Lemma ids_below_count_zero {A : Type} (key : A -> option Z) (next i : Z) (rows : list A) :
  ids_below key next rows -> next <= i ->
  query_count (fun r => opt_Z_eqb (key r) (Some i)) rows = 0%nat.
Proof.
  unfold ids_below, query_count. intros Hbelow Hle.
  induction Hbelow as [|r rows (j & Hj & Hlt) _ IH]; simpl; [reflexivity|].
  rewrite Hj. simpl. destruct (Z.eqb_spec j i); [lia|exact IH].
Qed.

Lemma ids_below_insert {A : Type} (key : A -> option Z) (next : Z) (rows : list A) (r : A) :
  ids_below key next rows -> key r = Some next ->
  ids_below key (next + 1) (rows ++ [r]).
Proof.
  unfold ids_below. intros Hbelow Hr. apply Forall_app. split.
  - eapply Forall_impl; [exact Hbelow|]. intros r0 (j & Hj & Hlt). exists j. split; [done|lia].
  - repeat constructor. exists next. split; [done|lia].
Qed.

Lemma ids_below_filter {A : Type} (key : A -> option Z) (next : Z) (q : A -> bool)
    (rows : list A) :
  ids_below key next rows -> ids_below key next (List.filter q rows).
Proof.
  unfold ids_below. induction 1 as [|r rows Hr _ IH]; simpl; [constructor|].
  destruct (q r); [by constructor|exact IH].
Qed.

Lemma ids_below_map {A : Type} (key : A -> option Z) (next : Z) (g : A -> A)
    (rows : list A) :
  (forall r, key (g r) = key r) ->
  ids_below key next rows -> ids_below key next (map g rows).
Proof.
  unfold ids_below. intros Hg. induction 1 as [|r rows Hr _ IH]; simpl; constructor.
  - by rewrite Hg.
  - exact IH.
Qed.

Lemma unique_ids_insert {A : Type} (key : A -> option Z) (next : Z) (rows : list A) (r : A) :
  (forall i, (query_count (fun r => opt_Z_eqb (key r) (Some i)) rows <= 1)%nat) ->
  ids_below key next rows -> key r = Some next ->
  forall i, (query_count (fun r => opt_Z_eqb (key r) (Some i)) (rows ++ [r]) <= 1)%nat.
Proof.
  intros Huniq Hbelow Hr i. rewrite query_count_app.
  unfold query_count at 2. simpl. rewrite Hr. simpl.
  destruct (Z.eqb_spec next i) as [<-|Hne]; simpl.
  - rewrite (ids_below_count_zero key next next rows Hbelow); lia.
  - pose proof (Huniq i). lia.
Qed.

(** Two rows that pass a filter at most one row passes are one row. *)
Lemma query_count_le_1_eq {A : Type} (p : A -> bool) (rows : list A) (a b : A) :
  (query_count p rows <= 1)%nat ->
  In a rows -> p a = true -> In b rows -> p b = true -> a = b.
Proof.
  intros Hle Ha Hpa Hb Hpb.
  pose proof (query_first_unique p rows a Hle Ha Hpa) as H1.
  pose proof (query_first_unique p rows b Hle Hb Hpb) as H2.
  congruence.
Qed.

Lemma insert_user_ok (u u' : Users) (s s' : Store) :
  store_ok s -> insert_user u s = inr (u', s') -> store_ok s'.
Proof.
  intros Hok Hins. pose proof (insert_user_unique_usernames u u' s s' (ok_usernames s Hok) Hins).
  destruct Hok. unfold insert_user in Hins.
  destruct (existsb _ _); [discriminate|]. injection Hins as <- <-.
  constructor; try assumption; simpl.
  - intros i. simpl. unfold user_has_id.
    apply (unique_ids_insert user_id (next_user_id s)); [exact ok_user_ids0|exact ok_users_below0|reflexivity].
  - apply ids_below_insert; auto.
Qed.

Lemma insert_mod_ok (m m' : Mods) (s s' : Store) :
  store_ok s -> insert_mod m s = inr (m', s') -> store_ok s'.
Proof.
  intros Hok Hins. pose proof (insert_mod_unique_file_ids m m' s s' (ok_file_ids s Hok) Hins).
  destruct Hok. unfold insert_mod in Hins.
  destruct (existsb _ _); [discriminate|]. injection Hins as <- <-.
  constructor; try assumption; simpl.
  - intros i. simpl. unfold mod_has_id.
    apply (unique_ids_insert mod_id (next_mod_id s)); [exact ok_mod_ids0|exact ok_mods_below0|reflexivity].
  - apply ids_below_insert; auto.
Qed.

Lemma insert_record_ok (r r' : Records) (s s' : Store) :
  store_ok s -> insert_record r s = inr (r', s') -> store_ok s'.
Proof.
  intros Hok Hins. pose proof (insert_record_unique_pairs r r' s s' (ok_pairs s Hok) Hins).
  destruct Hok. unfold insert_record in Hins.
  destruct (existsb _ _); [discriminate|]. injection Hins as <- <-.
  constructor; try assumption; simpl.
  - intros i. simpl. unfold record_has_id.
    apply (unique_ids_insert record_id (next_record_id s)); [exact ok_record_ids0|exact ok_records_below0|reflexivity].
  - apply ids_below_insert; auto.
Qed.

Lemma delete_mod_ok (i : Z) (s : Store) :
  store_ok s ->
  store_ok (mkStore (users s) (query_delete (mod_has_id i) (mods s)) (records s)
              (next_user_id s) (next_mod_id s) (next_record_id s)).
Proof.
  intros []. constructor; try assumption; simpl.
  - intros f. etransitivity; [apply query_count_delete_le|apply ok_file_ids0].
  - intros j. etransitivity; [apply query_count_delete_le|apply ok_mod_ids0].
  - by apply ids_below_filter.
Qed.

Lemma delete_record_ok (i : Z) (s : Store) :
  store_ok s ->
  store_ok (mkStore (users s) (mods s) (query_delete (record_has_id i) (records s))
              (next_user_id s) (next_mod_id s) (next_record_id s)).
Proof.
  intros []. constructor; try assumption; simpl.
  - intros u m. etransitivity; [apply query_count_delete_le|apply ok_pairs0].
  - intros j. etransitivity; [apply query_count_delete_le|apply ok_record_ids0].
  - by apply ids_below_filter.
Qed.

Lemma update_user_ok (i : Z) (old new : Users) (s : Store) :
  store_ok s ->
  query_first (user_has_id i) (users s) = Some old ->
  user_id new = user_id old ->
  username new = username old ->
  store_ok (update_user new s).
Proof.
  intros [] Hold Hid Hname.
  pose proof (query_first_Some _ _ _ Hold) as [Hin Hi].
  assert (Hsame : forall r, In r (users s) ->
            opt_Z_eqb (user_id r) (user_id new) = true -> r = old).
  { intros r Hr Heq. apply opt_Z_eqb_eq in Heq.
    apply (query_count_le_1_eq (user_has_id i) (users s)); auto.
    unfold user_has_id in *. apply opt_Z_eqb_eq in Hi.
    apply opt_Z_eqb_eq. congruence. }
  unfold update_user. constructor; try assumption; simpl.
  - intros n. simpl. rewrite query_count_map; [apply ok_usernames0|].
    intros r Hr. destruct (opt_Z_eqb _ _) eqn:Heq; [|reflexivity].
    rewrite (Hsame r Hr Heq). unfold user_has_name. by rewrite Hname.
  - intros j. simpl. rewrite query_count_map; [apply ok_user_ids0|].
    intros r Hr. destruct (opt_Z_eqb _ _) eqn:Heq; [|reflexivity].
    rewrite (Hsame r Hr Heq). unfold user_has_id. by rewrite Hid.
  - apply ids_below_map; [|assumption].
    intros r. destruct (opt_Z_eqb _ _) eqn:Heq; [|reflexivity].
    apply opt_Z_eqb_eq in Heq. congruence.
Qed.

Lemma update_record_ok (i : Z) (old new : Records) (s : Store) :
  store_ok s ->
  query_first (record_has_id i) (records s) = Some old ->
  record_id new = record_id old ->
  rec_user_id new = rec_user_id old ->
  rec_mod_id new = rec_mod_id old ->
  store_ok (update_record new s).
Proof.
  intros [] Hold Hid Huser Hmod.
  pose proof (query_first_Some _ _ _ Hold) as [Hin Hi].
  assert (Hsame : forall r, In r (records s) ->
            opt_Z_eqb (record_id r) (record_id new) = true -> r = old).
  { intros r Hr Heq. apply opt_Z_eqb_eq in Heq.
    apply (query_count_le_1_eq (record_has_id i) (records s)); auto.
    unfold record_has_id in *. apply opt_Z_eqb_eq in Hi.
    apply opt_Z_eqb_eq. congruence. }
  unfold update_record. constructor; try assumption; simpl.
  - intros u m. simpl. rewrite query_count_map; [apply ok_pairs0|].
    intros r Hr. destruct (opt_Z_eqb _ _) eqn:Heq; [|reflexivity].
    rewrite (Hsame r Hr Heq). unfold record_has_pair. by rewrite Huser, Hmod.
  - intros j. simpl. rewrite query_count_map; [apply ok_record_ids0|].
    intros r Hr. destruct (opt_Z_eqb _ _) eqn:Heq; [|reflexivity].
    rewrite (Hsame r Hr Heq). unfold record_has_id. by rewrite Hid.
  - apply ids_below_map; [|assumption].
    intros r. destruct (opt_Z_eqb _ _) eqn:Heq; [|reflexivity].
    apply opt_Z_eqb_eq in Heq. congruence.
Qed.

Lemma store_step_ok (s s' : Store) :
  store_ok s -> store_step s s' -> store_ok s'.
Proof.
  intros Hok Hstep. destruct Hstep.
  - exact Hok.
  - eapply insert_user_ok; eauto.
  - eapply insert_mod_ok; eauto.
  - eapply insert_record_ok; eauto.
  - by apply delete_mod_ok.
  - by apply delete_record_ok.
  - eapply update_user_ok; eauto.
  - eapply update_record_ok; eauto.
Qed.

(** ** What a request does to the store *)

Ltac unfold_views :=
  unfold serve, register, login, logout, login_status, add_mod, get_mod, delete_mod,
    record_list, get_record, add_record, edit_record, delete_record, edit_user,
    json_loads_request_data, validate_on_submit,
    Users_query_get, Users_query_get_or_404, Users_query_first_by_username,
    Mods_query_first_by_file_id, Records_query_first_by_id, Records_query_get_or_404,
    Mods_query_delete_by_id, Records_query_delete_by_id,
    db_add_commit_user, db_add_commit_mod, db_add_commit_record,
    db_commit_user, db_commit_record, db_session_commit, db_session_rollback,
    do_login, do_logout, Users_signup, Records_new in *.

Ltac destruct_matches :=
  repeat match goal with
    | |- context [match ?x with _ => _ end] =>
        lazymatch x with
        | context [match _ with _ => _ end] => fail
        | _ => destruct x eqn:?; simpl in *
        end
    end.

Ltac solve_store_step :=
  first
    [ apply step_same
    | eapply step_insert_user; eassumption
    | eapply step_insert_mod; eassumption
    | eapply step_insert_record; eassumption
    | apply step_delete_mod
    | apply step_delete_record
    | eapply step_update_user; [eassumption|reflexivity|reflexivity]
    | eapply step_update_record; [eassumption|reflexivity|reflexivity|reflexivity] ].

(** The before-request functions never raise and touch neither the store
    nor the flashed messages. *)
Lemma preprocess_request_frame (req : Request) (st : State) :
  (preprocess_request req st).1 = inr tt /\
  db (preprocess_request req st).2 = db st /\
  flashes (preprocess_request req st).2 = flashes st /\
  got_first_request (preprocess_request req st).2 = true.
Proof.
  unfold preprocess_request, check_cookies, global_user. unfold_views. run_handler.
  destruct_matches; repeat split; try reflexivity; try assumption.
Qed.

Lemma serve_after_preprocess {A : Type} (req : Request) (view : M A) (st : State) :
  serve req view st = view (preprocess_request req st).2.
Proof.
  unfold serve. unfold bind at 1.
  pose proof (preprocess_request_frame req st) as [Hok _].
  destruct (preprocess_request req st) as [[e|[]] st']; simpl in *; congruence.
Qed.

Section Steps.
Variable hash_password : string -> string.
Variable image_url_default_arg : pyval.
Variable image_url_default_args : Result pyval.
Variable default_user_notes default_user_review : pyval.
Variable default_now_playing default_play_status : pyval.
Variable RegistrationForm_validate : RegistrationForm -> bool.
Variable RecordForm_validate : RecordForm -> bool.
Variable UserEditForm_validate : UserEditForm -> bool.
Variable Users_authenticate : list Users -> string -> string -> option Users.
Variable LoginForm_validate : LoginForm -> bool.

Local Abbreviation handle_view' :=
  (handle_view hash_password image_url_default_arg image_url_default_args
     default_user_notes default_user_review default_now_playing default_play_status
     RegistrationForm_validate RecordForm_validate UserEditForm_validate
     Users_authenticate LoginForm_validate).

Local Abbreviation handle' :=
  (handle hash_password image_url_default_arg image_url_default_args
     default_user_notes default_user_review default_now_playing default_play_status
     RegistrationForm_validate RecordForm_validate UserEditForm_validate
     Users_authenticate LoginForm_validate).

Local Abbreviation handle_all' :=
  (handle_all hash_password image_url_default_arg image_url_default_args
     default_user_notes default_user_review default_now_playing default_play_status
     RegistrationForm_validate RecordForm_validate UserEditForm_validate
     Users_authenticate LoginForm_validate).

Lemma handle_view_step (req : Request) (route : Route) (st : State) :
  store_step (db st) (db (handle_view' req route st)).
Proof.
  pose proof (preprocess_request_frame req st) as (_ & Hdb & _).
  unfold handle_view. destruct route; rewrite serve_after_preprocess;
    destruct (preprocess_request req st).2 as [s ses g fl started] eqn:Hst;
    simpl in Hdb; subst s; clear Hst;
    unfold_views; unfold run_insert; run_handler; destruct_matches;
    solve_store_step.
Qed.

(** Every request leaves a well-formed store well-formed, whatever it
    carries and whoever sends it. *)
Lemma handle_keeps_store_ok (req : Request) (route : Route) (st : State) :
  store_ok (db st) -> store_ok (db (handle' req route st)).
Proof.
  intros Hok. unfold handle. destruct (route_allows route (method req)).
  - eapply store_step_ok; [exact Hok|apply handle_view_step].
  - pose proof (preprocess_request_frame req st) as (_ & Hdb & _). by rewrite Hdb.
Qed.

(** X1: the uniqueness constraints and the primary keys of the store
    survive any sequence of requests to the routes. *)
Theorem handle_all_keeps_store_ok (reqs : list (Request * Route)) (st : State) :
  store_ok (db st) -> store_ok (db (handle_all' reqs st)).
Proof.
  revert st. induction reqs as [|[req route] reqs IH]; intros st Hok; simpl.
  - exact Hok.
  - apply IH. by apply handle_keeps_store_ok.
Qed.




End Steps.

(** ** The first request and the later ones *)

(** X5: the first request a process serves, when it carries no username
    cookie, is anonymous and leaves the session unbound, even if the session
    was bound to a user before. *)
Theorem first_request_without_cookie_is_anonymous (req : Request) (st : State) :
  got_first_request st = false ->
  cookies req !! "user" = None ->
  (resolve_current_user req st).1 = inr None /\
  session (resolve_current_user req st).2 !! CURR_USER_KEY = None.
Proof.
  intros Hfirst Hcookie.
  unfold resolve_current_user, preprocess_request, check_cookies, global_user.
  unfold_views. run_handler. rewrite Hfirst, Hcookie. simpl.
  destruct (session st !! CURR_USER_KEY) eqn:Hs; simpl.
  - rewrite lookup_delete_eq. simpl. split; [reflexivity|apply lookup_delete_eq].
  - rewrite Hs. simpl. split; [reflexivity|exact Hs].
Qed.

(** X6: on the first request a process serves, the username cookie of an
    existing user decides who the request is resolved to, whatever the
    session was bound to. *)
Theorem first_request_cookie_overrides_session
    (req : Request) (st : State) (name : string) (u : Users) (i : Z) :
  got_first_request st = false ->
  cookies req !! "user" = Some name ->
  query_first (user_has_name name) (users (db st)) = Some u ->
  user_id u = Some i ->
  unique_user_ids (db st) ->
  (resolve_current_user req st).1 = inr (Some u) /\
  session (resolve_current_user req st).2 !! CURR_USER_KEY = Some (PInt i).
Proof.
  intros Hfirst Hcookie Hfound Hid Huniq.
  pose proof (query_first_Some _ _ _ Hfound) as [Hin _].
  assert (Hget : query_first (user_has_id i) (users (db st)) = Some u).
  { apply query_first_unique; [apply Huniq|exact Hin|].
    unfold user_has_id. rewrite Hid. by apply opt_Z_eqb_eq. }
  unfold resolve_current_user, preprocess_request, check_cookies, global_user.
  unfold_views. run_handler. rewrite Hfirst, Hcookie. simpl. rewrite Hfound. simpl.
  rewrite Hid. simpl. rewrite lookup_insert_eq. simpl.
  rewrite Hget. simpl. split; [reflexivity|apply lookup_insert_eq].
Qed.


(** A bound session whose user row exists is resolved to that user. *)
Lemma resolve_bound_session (req : Request) (st : State) (u : Users) (i : Z) :
  got_first_request st = true ->
  session st !! CURR_USER_KEY = Some (PInt i) ->
  query_first (user_has_id i) (users (db st)) = Some u ->
  resolve_current_user req st = (inr (Some u), set_g_user (Some u) st).
Proof.
  intros Hstarted Hs Hu.
  unfold resolve_current_user, preprocess_request, global_user. unfold_views.
  run_handler. rewrite Hstarted. simpl. rewrite Hs. simpl. rewrite Hu. reflexivity.
Qed.

Lemma resolve_unbound_session (req : Request) (st : State) :
  got_first_request st = true ->
  session st !! CURR_USER_KEY = None ->
  resolve_current_user req st = (inr None, set_g_user None st).
Proof.
  intros Hstarted Hs.
  unfold resolve_current_user, preprocess_request, global_user. unfold_views.
  run_handler. rewrite Hstarted. simpl. rewrite Hs. reflexivity.
Qed.

(** ** [login], [logout] and [login_status] *)

Section Login.
Variable Users_authenticate : list Users -> string -> string -> option Users.
Variable LoginForm_validate : LoginForm -> bool.
Variable hash_password : string -> string.
Variable image_url_default_arg : pyval.
Variable RegistrationForm_validate : RegistrationForm -> bool.

Local Abbreviation login' := (login Users_authenticate LoginForm_validate).
Local Abbreviation register' :=
  (register hash_password image_url_default_arg RegistrationForm_validate).

(** X8: after [logout] the session is unbound: every later request is
    anonymous, [login_status] answers ["False"], and no row was touched.  The
    response deletes both cookies and sends the client back to the referrer. *)
Theorem logout_then_anonymous (referrer : option string) (st : State) :
  got_first_request st = true ->
  (logout referrer st).1 = inr (mkLogoutResponse 302 referrer ["user"; "password"]) /\
  db (logout referrer st).2 = db st /\
  (forall req, (resolve_current_user req (logout referrer st).2).1 = inr None) /\
  (login_status (logout referrer st).2).1 = inr (jsonify [("status", PStr "False")]).
Proof.
  intros Hstarted.
  assert (Hs : session (logout referrer st).2 !! CURR_USER_KEY = None).
  { unfold logout. unfold_views. run_handler.
    destruct (session st !! CURR_USER_KEY) eqn:Hs; simpl; [apply lookup_delete_eq|exact Hs]. }
  assert (Hflag : got_first_request (logout referrer st).2 = true).
  { unfold logout. unfold_views. run_handler.
    destruct (session st !! CURR_USER_KEY); simpl; exact Hstarted. }
  split; [|split; [|split]].
  - unfold logout. unfold_views. run_handler.
    destruct (session st !! CURR_USER_KEY); reflexivity.
  - unfold logout. unfold_views. run_handler.
    destruct (session st !! CURR_USER_KEY); reflexivity.
  - intros req. by rewrite resolve_unbound_session.
  - unfold login_status. run_handler. rewrite Hs. reflexivity.
Qed.

(** X9: a request that carries a [user] cookie, whatever is in it, is sent
    to [/search] by [login] and by [register] before the form is looked at:
    no credentials are checked, no account is created, the state stays as it
    was. *)
Theorem user_cookie_bounces_login_and_register
    (req : Request) (lform : LoginForm) (rform : RegistrationForm) (st : State) :
  is_Some (cookies req !! "user") ->
  login' req lform st = (inr (redirect "/search"), st) /\
  register' req rform st = (inr (redirect "/search"), st).
Proof.
  intros [c Hc]. unfold login, register. rewrite Hc. split; reflexivity.
Qed.

(** X10: a login whose credentials [Users.authenticate] accepts binds the
    session to that user: the response sets the [user] cookie to the username
    and the [password] cookie to the stored password hash, [login_status]
    answers ["True"], and every later request is resolved to the user. *)
Theorem login_then_resolved
    (req : Request) (form : LoginForm) (st : State) (u : Users) (i : Z) :
  got_first_request st = true ->
  cookies req !! "user" = None ->
  method req = POST ->
  LoginForm_validate form = true ->
  Users_authenticate (users (db st)) (login_username form) (login_password form) = Some u ->
  query_first (user_has_id i) (users (db st)) = Some u ->
  user_id u = Some i ->
  (login' req form st).1 =
    inr (make_response 302 "/search" [("user", username u); ("password", password u)]) /\
  db (login' req form st).2 = db st /\
  (login_status (login' req form st).2).1 = inr (jsonify [("status", PStr "True")]) /\
  (forall req', (resolve_current_user req' (login' req form st).2).1 = inr (Some u)).
Proof.
  intros Hstarted Hcookie Hpost Hvalid Hauth Hget Hid.
  assert (Hrun : login' req form st =
            (inr (make_response 302 "/search"
                    [("user", username u); ("password", password u)]),
             set_flashes (flashes st ++ [("Welcome, " ++ username u ++ "!", "success")])
               (set_session (<[CURR_USER_KEY := PInt i]> (session st)) st))).
  { unfold login. unfold_views. rewrite Hcookie, Hpost, Hvalid. run_handler.
    rewrite Hauth. simpl. rewrite Hid. reflexivity. }
  rewrite Hrun. simpl. split; [reflexivity|]. split; [reflexivity|]. split.
  - unfold login_status. run_handler. rewrite lookup_insert_eq. reflexivity.
  - intros req'. erewrite resolve_bound_session; simpl; eauto.
    apply lookup_insert_eq.
Qed.

(** X11: a login that is turned down (the form does not validate, or
    [Users.authenticate] returns nothing) shows the login form again and
    binds nothing: session and store are as before, and [Invalid
    credentials.] is flashed exactly when the form validated. *)
Theorem login_rejected_binds_nothing (req : Request) (form : LoginForm) (st : State) :
  cookies req !! "user" = None ->
  validate_on_submit req (LoginForm_validate form) = false \/
  Users_authenticate (users (db st)) (login_username form) (login_password form) = None ->
  (login' req form st).1 = inr (render_template "login.html" [("form", CForm)]) /\
  session (login' req form st).2 = session st /\
  db (login' req form st).2 = db st /\
  flashes (login' req form st).2 =
    (if validate_on_submit req (LoginForm_validate form)
     then flashes st ++ [("Invalid credentials.", "danger")]
     else flashes st)%list.
Proof.
  intros Hcookie Hrejected. unfold login. rewrite Hcookie.
  destruct (validate_on_submit req (LoginForm_validate form)) eqn:Hvalid.
  - destruct Hrejected as [?|Hauth]; [discriminate|].
    run_handler. rewrite Hauth. repeat split.
  - repeat split.
Qed.

End Login.

(** ** Inserting and looking up *)

(** A row appended with the next primary key is the one a lookup by that key
    finds. *)
Lemma query_first_new_id {A : Type} (key : A -> option Z) (next : Z)
    (rows : list A) (r : A) :
  ids_below key next rows -> key r = Some next ->
  query_first (fun r => opt_Z_eqb (key r) (Some next)) (rows ++ [r]) = Some r.
Proof.
  intros Hbelow Hr. apply query_first_app_new.
  - apply (ids_below_count_zero key next next rows Hbelow). lia.
  - rewrite Hr. simpl. apply Z.eqb_refl.
Qed.

Section RegisterThenRequest.
Variable hash_password : string -> string.
Variable image_url_default_arg : pyval.
Variable RegistrationForm_validate : RegistrationForm -> bool.

Local Abbreviation register' :=
  (register hash_password image_url_default_arg RegistrationForm_validate).

(** X12: after a registration that went through, every later request of
    that client is resolved to the new user, whose row carries the submitted
    username and email, the hash of the password, and the default avatar when
    none was submitted. *)
Theorem register_then_resolved
    (req req' : Request) (form : RegistrationForm) (st : State) :
  got_first_request st = true ->
  cookies req !! "user" = None ->
  method req = POST ->
  RegistrationForm_validate form = true ->
  query_count (user_has_name (reg_username form)) (users (db st)) = 0%nat ->
  ids_below user_id (next_user_id (db st)) (users (db st)) ->
  (resolve_current_user req' (register' req form st).2).1 =
    inr (Some (mkUsers (Some (next_user_id (db st))) (reg_username form)
                 (PStr (reg_email form)) (hash_password (reg_password form))
                 (py_or (reg_image_url form) image_url_default_arg))).
Proof.
  intros Hstarted Hcookie Hpost Hvalid Hfree Hbelow.
  apply query_count_zero_existsb in Hfree.
  set (u := mkUsers (Some (next_user_id (db st))) (reg_username form)
              (PStr (reg_email form)) (hash_password (reg_password form))
              (py_or (reg_image_url form) image_url_default_arg)).
  assert (Hrun : (register' req form st).2 =
            set_session (<[CURR_USER_KEY := PInt (next_user_id (db st))]> (session st))
              (set_db (mkStore (users (db st) ++ [u]) (mods (db st)) (records (db st))
                         (next_user_id (db st) + 1) (next_mod_id (db st))
                         (next_record_id (db st))) st)).
  { unfold register, insert_user. unfold_views. unfold insert_user.
    rewrite Hcookie, Hpost, Hvalid. run_handler. rewrite Hfree. reflexivity. }
  rewrite Hrun. erewrite resolve_bound_session; simpl; eauto.
  - apply lookup_insert_eq.
  - apply (query_first_new_id user_id (next_user_id (db st))); auto.
Qed.

End RegisterThenRequest.

Section Attach.
Variable default_user_notes default_user_review : pyval.
Variable default_now_playing default_play_status : pyval.

Local Abbreviation add_record' :=
  (add_record default_user_notes default_user_review
     default_now_playing default_play_status).
Local Abbreviation get_mod' :=
  (get_mod default_user_notes default_user_review
     default_now_playing default_play_status).

(** [add_record] changes neither [g.user] nor anything but the store. *)
Lemma add_record_frame (mid : Z) (st : State) :
  g_user (add_record' mid st).2 = g_user st /\
  session (add_record' mid st).2 = session st /\
  flashes (add_record' mid st).2 = flashes st.
Proof.
  unfold add_record. unfold_views. unfold run_insert. run_handler.
  destruct_matches; repeat split; assumption.
Qed.

(** X13: attaching is idempotent on the store: once a logged-in user has
    called [add_record] for a mod, whatever the first call answered, a second
    call answers ["Already exists."] and changes nothing. *)
Theorem add_record_twice (mid : Z) (st : State) (u : Users) :
  g_user st = Some u ->
  add_record' mid (add_record' mid st).2 =
    (inr (jsonify [("status", PStr "Already exists."); ("record_id", PNone)]),
     (add_record' mid st).2).
Proof.
  intros Hg.
  pose proof (add_record_frame mid st) as (Hg' & _).
  apply (add_record_existing_pair _ _ _ _ mid _ u); [congruence|].
  destruct (existsb (record_has_pair (user_id u) mid) (records (db st))) eqn:Hex.
  - pose proof Hex as Hcount. apply query_count_existsb in Hcount.
    rewrite (add_record_existing_pair _ _ _ _ mid st u Hg Hcount). exact Hcount.
  - apply query_count_zero_existsb in Hex.
    destruct (add_record_new_pair default_user_notes default_user_review
                default_now_playing default_play_status mid st u Hg Hex)
      as (st' & Hrun & Hone & _).
    rewrite Hrun. simpl. lia.
Qed.


(** X15: the mod page never answers 404: it renders the mod the lookup
    finds, or none.  A POST to it attaches a record exactly as [add_record]
    does: both leave the same store. *)
Theorem get_mod_attaches_like_add_record (mid : Z) (req : Request) (st : State) :
  (get_mod' mid req st).1 =
    inr (page "mod.html" [("mod", PvMod (query_first (mod_has_id mid) (mods (db st))))]) /\
  (method req = POST -> db (get_mod' mid req st).2 = db (add_record' mid st).2) /\
  (method req = GET -> (get_mod' mid req st).2 = st).
Proof.
  unfold get_mod, add_record. unfold_views. unfold run_insert, insert_record.
  run_handler.
  destruct (method req); destruct_matches; repeat split; intros; try discriminate;
    reflexivity.
Qed.

End Attach.

(** ** Mods *)

Section ModPages.
Variable default_user_notes default_user_review : pyval.
Variable default_now_playing default_play_status : pyval.

Local Abbreviation get_mod' :=
  (get_mod default_user_notes default_user_review
     default_now_playing default_play_status).

(** X16: deleting a mod does not cascade.  After a logged-in caller deleted
    it, the mod page of that id renders no mod, while every record that
    pointed to it is still in the store and still listed. *)
Theorem delete_mod_leaves_records (mid : Z) (st : State) (u : Users) (r : Records) :
  g_user st = Some u ->
  In r (records (db st)) ->
  rec_mod_id r = mid ->
  (get_mod' mid (mkRequest GET ∅ None) (delete_mod mid st).2).1 =
    inr (page "mod.html" [("mod", PvMod None)]) /\
  In r (records (db (delete_mod mid st).2)) /\
  exists us,
    (record_list (delete_mod mid st).2).1 =
      inr (page "records.html"
             [("records", PvRecords (records (db st))); ("users", PvUsers us)]).
Proof.
  intros Hg Hin Hmid.
  destruct (delete_mod_logged_in mid st u Hg) as (st' & Hrun & _ & Hgone & Hrecs & _).
  rewrite Hrun. simpl. split; [|split].
  - unfold get_mod. run_handler. rewrite Hgone. reflexivity.
  - by rewrite Hrecs.
  - eexists. unfold record_list. run_handler. rewrite Hrecs. reflexivity.
Qed.

(** X17: importing and then opening the mod page: the id [add_mod] answers
    with is the id under which the mod page finds the new mod, with the
    category, rating and other columns that [create_mod] made. *)
Theorem add_mod_then_get_mod
    (req : Request) (st : State) (u : Users) (payload file_id : pyval) (m : Mods) :
  g_user st = Some u ->
  data req = Some payload ->
  py_getitem payload "id" = inr file_id ->
  create_mod payload = inr m ->
  query_count (mod_has_file_id file_id) (mods (db st)) = 0%nat ->
  ids_below mod_id (next_mod_id (db st)) (mods (db st)) ->
  (add_mod req st).1 =
    inr (jsonify [("status", PStr "Pulled!"); ("mod_id", PInt (next_mod_id (db st)))]) /\
  (get_mod' (next_mod_id (db st)) (mkRequest GET ∅ None) (add_mod req st).2).1 =
    inr (page "mod.html"
           [("mod",
             PvMod (Some (mkMods (Some (next_mod_id (db st))) (mod_title m)
                            (mod_file_id m) (mod_url m) (mod_description m)
                            (mod_date_uploaded m) (mod_author m) (mod_category m)
                            (mod_rating m) (mod_rating_count m))))]).
Proof.
  intros Hg Hdata Hid Hm Hfree Hbelow.
  assert (Hfile : mod_file_id m = file_id).
  { destruct payload; try discriminate. simpl in Hid, Hm.
    unfold dict_item in *. destruct (dict_get "id" items) eqn:Hget; [|discriminate].
    injection Hid as <-. revert Hm. unfold bindR.
    repeat match goal with
      | |- context [match dict_get ?k items with _ => _ end] =>
          destruct (dict_get k items) eqn:?; try discriminate
      | |- context [match partition_head ?v with _ => _ end] =>
          destruct (partition_head v) eqn:?; try discriminate
      | |- context [if dict_has ?k items then _ else _] =>
          destruct (dict_has k items) eqn:?; try discriminate
      end; intros [= <-]; simpl; congruence. }
  rewrite (add_mod_new req st u payload file_id m Hg Hdata Hid Hm Hfile Hfree).
  simpl. split; [reflexivity|].
  unfold get_mod. run_handler.
  rewrite (query_first_new_id mod_id (next_mod_id (db st))); auto.
Qed.

End ModPages.

(** X18: when [add_mod] raises (the body is not JSON, it has no [id], or
    [create_mod] misses a key), it has written and flashed nothing: the state
    is the one it started in. *)
Theorem add_mod_raise_keeps_state (req : Request) (st : State) (e : exn) :
  (add_mod req st).1 = inl e -> (add_mod req st).2 = st.
Proof.
  unfold add_mod. unfold_views. unfold run_insert. run_handler.
  destruct_matches; intros; simplify_eq; reflexivity.
Qed.

(** X19: [create_mod] returns a mod exactly for an object whose [dir] is a
    string and that has the keys [title], [id], [url], [description], [date]
    and [author]; the six values are stored as they came, and a [rating] or
    [votes] the object has is stored as it came too. *)
Theorem create_mod_succeeds_iff (items : list (string * pyval)) :
  ((exists m, create_mod (PDict items) = inr m) <->
   (exists d, dict_get "dir" items = Some (PStr d)) /\ mod_keys_present items = true) /\
  (forall m, create_mod (PDict items) = inr m ->
     dict_get "title" items = Some (mod_title m) /\
     dict_get "id" items = Some (mod_file_id m) /\
     dict_get "url" items = Some (mod_url m) /\
     dict_get "description" items = Some (mod_description m) /\
     dict_get "date" items = Some (mod_date_uploaded m) /\
     dict_get "author" items = Some (mod_author m) /\
     (dict_has "rating" items = true -> dict_get "rating" items = Some (mod_rating m)) /\
     (dict_has "votes" items = true ->
        dict_get "votes" items = Some (mod_rating_count m))).
Proof.
  split; [split|].
  - intros [m Hm]. unfold create_mod, dict_item, bindR, partition_head in Hm.
    unfold mod_keys_present, dict_has. simpl.
    destruct (dict_get "dir" items) as [[]|]; try discriminate.
    destruct (dict_has "rating" items), (dict_has "votes" items);
      destruct (dict_get "rating" items), (dict_get "votes" items); try discriminate;
      destruct (dict_get "title" items); try discriminate;
      destruct (dict_get "id" items); try discriminate;
      destruct (dict_get "url" items); try discriminate;
      destruct (dict_get "description" items); try discriminate;
      destruct (dict_get "date" items); try discriminate;
      destruct (dict_get "author" items); try discriminate;
      eauto.
  - intros [[d Hd] Hkeys].
    destruct (create_mod_returns items d Hd Hkeys) as (m & Hm & _). eauto.
  - intros m Hm. unfold create_mod, dict_item, bindR, partition_head in Hm.
    unfold dict_has.
    destruct (dict_get "dir" items) as [[]|]; try discriminate.
    unfold dict_has in Hm.
    destruct (dict_get "rating" items), (dict_get "votes" items); try discriminate;
      destruct (dict_get "title" items); try discriminate;
      destruct (dict_get "id" items); try discriminate;
      destruct (dict_get "url" items); try discriminate;
      destruct (dict_get "description" items); try discriminate;
      destruct (dict_get "date" items); try discriminate;
      destruct (dict_get "author" items); try discriminate;
      injection Hm as <-; simpl; repeat split; intros; try discriminate; reflexivity.
Qed.

(** ** Records *)

(** X20: the users [record_list] hands to its template are exactly the
    stored users that own at least one record, in table order; the records
    are all records; the state is not touched. *)
Theorem record_list_users_own_records (st : State) :
  exists us,
    record_list st =
      (inr (page "records.html"
              [("records", PvRecords (records (db st))); ("users", PvUsers us)]), st) /\
    (forall u, In u us <->
       In u (users (db st)) /\
       exists r, In r (records (db st)) /\ rec_user_id r = user_id u) /\
    sublist us (users (db st)).
Proof.
  eexists. split; [reflexivity|]. split.
  - intros u. rewrite List.filter_In. unfold user_records.
    split; intros [Hin Hown]; (split; [exact Hin|]).
    + destruct (List.filter _ _) as [|r rs] eqn:Hf; [discriminate|].
      assert (Hr : In r (List.filter
                (fun r => opt_Z_eqb (rec_user_id r) (user_id u)) (records (db st))))
        by (rewrite Hf; by left).
      apply List.filter_In in Hr as [Hr Heq]. apply opt_Z_eqb_eq in Heq. eauto.
    + destruct Hown as (r & Hr & Heq).
      assert (Hr' : In r (List.filter
                (fun r => opt_Z_eqb (rec_user_id r) (user_id u)) (records (db st)))).
      { apply List.filter_In. split; [exact Hr|]. by apply opt_Z_eqb_eq. }
      destruct (List.filter _ _); [contradiction|reflexivity].
  - induction (users (db st)) as [|u us IH]; simpl; [constructor|].
    destruct (nonempty _); by constructor.
Qed.

(** X21: deleting a record twice.  After a logged-in caller deleted an
    existing record, its page is [NotFound], and a second delete of the same
    id raises [AttributeError] instead of answering. *)
Theorem delete_record_twice (rid : Z) (st : State) (u : Users) (r : Records) :
  g_user st = Some u ->
  query_first (record_has_id rid) (records (db st)) = Some r ->
  (get_record rid (delete_record rid st).2).1 = inl NotFound /\
  (delete_record rid (delete_record rid st).2).1 = inl (AttributeError "mod_id").
Proof.
  intros Hg Hfound.
  assert (Hgone : query_first (record_has_id rid)
                    (records (db (delete_record rid st).2)) = None).
  { unfold delete_record. unfold_views. run_handler. rewrite Hfound. simpl.
    rewrite Hg. simpl. apply query_first_delete. }
  split.
  - by rewrite get_record_missing.
  - unfold delete_record at 1. unfold_views. run_handler. rewrite Hgone. reflexivity.
Qed.

(** ** Users *)

Lemma update_user_keeps_credentials (i : Z) (old new : Users) (s : Store) :
  unique_user_ids s ->
  query_first (user_has_id i) (users s) = Some old ->
  user_id new = user_id old ->
  username new = username old ->
  password new = password old ->
  map (fun u => (user_id u, username u, password u)) (users (update_user new s)) =
  map (fun u => (user_id u, username u, password u)) (users s).
Proof.
  intros Huniq Hold Hid Hname Hpass.
  pose proof (query_first_Some _ _ _ Hold) as [Hin Hi].
  unfold update_user. simpl. rewrite List.map_map. apply List.map_ext_in.
  intros r Hr. destruct (opt_Z_eqb _ _) eqn:Heq; [|reflexivity].
  apply opt_Z_eqb_eq in Heq.
  assert (r = old) as ->.
  { apply (query_count_le_1_eq (user_has_id i) (users s)); auto.
    unfold user_has_id in *. apply opt_Z_eqb_eq in Hi. apply opt_Z_eqb_eq. congruence. }
  congruence.
Qed.

Section EditUserFrame.
Variable image_url_default_args : Result pyval.
Variable UserEditForm_validate : UserEditForm -> bool.

(** X22: whoever calls [edit_user] with whatever form, no user's id,
    username or password hash changes, and no user row is added or removed. *)
Theorem edit_user_keeps_credentials
    (uid : Z) (req : Request) (form : UserEditForm) (st : State) :
  unique_user_ids (db st) ->
  map (fun u => (user_id u, username u, password u))
    (users (db (edit_user image_url_default_args UserEditForm_validate
                  uid req form st).2)) =
  map (fun u => (user_id u, username u, password u)) (users (db st)).
Proof.
  intros Huniq. unfold edit_user. unfold_views. run_handler.
  destruct_matches; try reflexivity;
    match goal with
    | H : query_first (user_has_id uid) _ = Some ?old
      |- context [if opt_Z_eqb _ _ then ?new else _] =>
        apply (update_user_keeps_credentials uid old new (db st) Huniq H); reflexivity
    end.
Qed.

End EditUserFrame.

(** ** The further properties on the small installation *)

Lemma empty_store_ok : store_ok empty_store.
Proof.
  constructor; try (intros ?; try intros ?; unfold query_count; simpl; lia);
    constructor.
Qed.

Lemma example_store_ok : store_ok example_store.
Proof.
  destruct example_store_unique as (Hnames & Hfiles & Hpairs & Hids).
  constructor; try assumption.
  - intros i. unfold query_count. simpl. destruct (mod_has_id i example_mod); simpl; lia.
  - intros i. unfold query_count. simpl.
    destruct (record_has_id i example_record); simpl; lia.
  - repeat (apply List.Forall_cons; [eexists; split; [reflexivity|simpl; lia]|]).
    apply List.Forall_nil.
  - repeat (apply List.Forall_cons; [eexists; split; [reflexivity|simpl; lia]|]).
    apply List.Forall_nil.
  - repeat (apply List.Forall_cons; [eexists; split; [reflexivity|simpl; lia]|]).
    apply List.Forall_nil.
Qed.

Lemma handle_all_keeps_store_ok_witness :
  store_ok (db (example_handle_all
                  [(plain_post, route_register alice_registration);
                   (json_post example_mod_json, route_add_mod);
                   (plain_post, route_add_record 1);
                   (plain_post, route_edit_record 1 great_review);
                   (plain_post, route_delete_mod 1)]
                  fresh_process)).
Proof.
  apply (handle_all_keeps_store_ok example_hash (PStr "/static/default.png")
           (inl (AttributeError "args")) PNone PNone (PBool false) (PStr "Not Started")
           example_validate example_validate example_validate
           example_authenticate example_validate).
  apply empty_store_ok.
Defined.



Lemma first_request_without_cookie_is_anonymous_witness :
  (resolve_current_user plain_post (set_got_first_request false (logged_in alice))).1 =
    inr None /\
  session (resolve_current_user plain_post
             (set_got_first_request false (logged_in alice))).2 !! CURR_USER_KEY = None.
Proof.
  apply (first_request_without_cookie_is_anonymous plain_post
           (set_got_first_request false (logged_in alice))); reflexivity.
Defined.

Lemma first_request_cookie_overrides_session_witness :
  (resolve_current_user (cookie_request "alice")
     (set_got_first_request false (logged_in bob))).1 = inr (Some alice) /\
  session (resolve_current_user (cookie_request "alice")
             (set_got_first_request false (logged_in bob))).2 !! CURR_USER_KEY =
    Some (PInt 1).
Proof.
  apply (first_request_cookie_overrides_session (cookie_request "alice")
           (set_got_first_request false (logged_in bob)) "alice" alice 1);
    try reflexivity.
  apply example_store_ok.
Defined.


Lemma logout_then_anonymous_witness :
  (logout (Some "/mods") (logged_in alice)).1 =
    inr (mkLogoutResponse 302 (Some "/mods") ["user"; "password"]) /\
  db (logout (Some "/mods") (logged_in alice)).2 = db (logged_in alice) /\
  (forall req,
     (resolve_current_user req (logout (Some "/mods") (logged_in alice)).2).1 =
       inr None) /\
  (login_status (logout (Some "/mods") (logged_in alice)).2).1 =
    inr (jsonify [("status", PStr "False")]).
Proof.
  apply (logout_then_anonymous (Some "/mods") (logged_in alice)). reflexivity.
Defined.

Lemma user_cookie_bounces_login_and_register_witness :
  example_login (cookie_request "nobody") alice_login anonymous =
    (inr (redirect "/search"), anonymous) /\
  example_register (cookie_request "nobody") carol_registration anonymous =
    (inr (redirect "/search"), anonymous).
Proof.
  apply (user_cookie_bounces_login_and_register example_authenticate example_validate
           example_hash (PStr "/static/default.png") example_validate
           (cookie_request "nobody") alice_login carol_registration anonymous).
  eexists. reflexivity.
Defined.

Lemma login_then_resolved_witness :
  (example_login plain_post alice_login anonymous).1 =
    inr (make_response 302 "/search"
           [("user", username alice); ("password", password alice)]) /\
  db (example_login plain_post alice_login anonymous).2 = db anonymous /\
  (login_status (example_login plain_post alice_login anonymous).2).1 =
    inr (jsonify [("status", PStr "True")]) /\
  (forall req',
     (resolve_current_user req' (example_login plain_post alice_login anonymous).2).1 =
       inr (Some alice)).
Proof.
  apply (login_then_resolved example_authenticate example_validate
           plain_post alice_login anonymous alice 1); reflexivity.
Defined.

Lemma login_rejected_binds_nothing_witness :
  (example_login plain_post alice_wrong_password anonymous).1 =
    inr (render_template "login.html" [("form", CForm)]) /\
  session (example_login plain_post alice_wrong_password anonymous).2 =
    session anonymous /\
  db (example_login plain_post alice_wrong_password anonymous).2 = db anonymous /\
  flashes (example_login plain_post alice_wrong_password anonymous).2 =
    (if validate_on_submit plain_post (example_validate alice_wrong_password)
     then flashes anonymous ++ [("Invalid credentials.", "danger")]
     else flashes anonymous)%list.
Proof.
  apply (login_rejected_binds_nothing example_authenticate example_validate
           plain_post alice_wrong_password anonymous).
  - reflexivity.
  - right. reflexivity.
Defined.

Lemma register_then_resolved_witness :
  (resolve_current_user plain_get
     (example_register plain_post carol_registration anonymous).2).1 =
    inr (Some (mkUsers (Some 3) "carol" (PStr "carol@example.org") (example_hash "c")
                 (PStr "/static/default.png"))).
Proof.
  apply (register_then_resolved example_hash (PStr "/static/default.png")
           example_validate plain_post plain_get carol_registration anonymous);
    try reflexivity.
  apply example_store_ok.
Defined.

Lemma add_record_twice_witness :
  example_add_record 1 (example_add_record 1 (logged_in bob)).2 =
    (inr (jsonify [("status", PStr "Already exists."); ("record_id", PNone)]),
     (example_add_record 1 (logged_in bob)).2).
Proof.
  apply (add_record_twice PNone PNone (PBool false) (PStr "Not Started") 1
           (logged_in bob) bob).
  reflexivity.
Defined.


Lemma delete_mod_leaves_records_witness :
  (example_get_mod 1 plain_get (delete_mod 1 (logged_in alice)).2).1 =
    inr (page "mod.html" [("mod", PvMod None)]) /\
  In example_record (records (db (delete_mod 1 (logged_in alice)).2)) /\
  exists us,
    (record_list (delete_mod 1 (logged_in alice)).2).1 =
      inr (page "records.html"
             [("records", PvRecords (records (db (logged_in alice))));
              ("users", PvUsers us)]).
Proof.
  apply (delete_mod_leaves_records PNone PNone (PBool false) (PStr "Not Started") 1
           (logged_in alice) alice example_record).
  - reflexivity.
  - simpl. left. reflexivity.
  - reflexivity.
Defined.

Lemma add_mod_then_get_mod_witness :
  (add_mod (json_post other_mod_json) (logged_in alice)).1 =
    inr (jsonify [("status", PStr "Pulled!"); ("mod_id", PInt 2)]) /\
  (example_get_mod 2 plain_get
     (add_mod (json_post other_mod_json) (logged_in alice)).2).1 =
    inr (page "mod.html"
           [("mod",
             PvMod (Some (mkMods (Some 2) (PStr "Y") (PInt 43) (PStr "v") (PStr "e")
                            (PStr "2021") (PStr "b") (PStr "themes") (PInt 4)
                            (PInt 12))))]).
Proof.
  apply (add_mod_then_get_mod PNone PNone (PBool false) (PStr "Not Started")
           (json_post other_mod_json) (logged_in alice) alice other_mod_json (PInt 43)
           (mkMods None (PStr "Y") (PInt 43) (PStr "v") (PStr "e") (PStr "2021")
              (PStr "b") (PStr "themes") (PInt 4) (PInt 12)));
    try reflexivity.
  apply example_store_ok.
Defined.

Lemma add_mod_raise_keeps_state_witness :
  (add_mod plain_post (logged_in alice)).2 = logged_in alice.
Proof.
  apply (add_mod_raise_keeps_state plain_post (logged_in alice) JSONDecodeError).
  reflexivity.
Defined.

Lemma delete_record_twice_witness :
  (get_record 1 (delete_record 1 (logged_in alice)).2).1 = inl NotFound /\
  (delete_record 1 (delete_record 1 (logged_in alice)).2).1 =
    inl (AttributeError "mod_id").
Proof.
  apply (delete_record_twice 1 (logged_in alice) alice example_record); reflexivity.
Defined.

Lemma edit_user_keeps_credentials_witness :
  map (fun u => (user_id u, username u, password u))
    (users (db (example_edit_user 1 plain_post mallory_edit (logged_in bob)).2)) =
  map (fun u => (user_id u, username u, password u)) (users (db (logged_in bob))).
Proof.
  apply (edit_user_keeps_credentials (inl (AttributeError "args")) example_validate
           1 plain_post mallory_edit (logged_in bob)).
  apply example_store_ok.
Defined.

(** Bob, who does not own it, edits alice's record. *)
Lemma edit_record_then_get_record_witness :
  exists st',
    example_edit_record 1 plain_post great_review (logged_in bob) =
      (inr (redirect ("/records/" ++ py_str_int 1)), st') /\
    db st' = update_record (submitted_record example_record great_review)
               (db (logged_in bob)) /\
    get_record 1 st' =
      (inr (render_template "record.html"
              [("record", CRecord (submitted_record example_record great_review))]),
       st') /\
    rec_user_id (submitted_record example_record great_review) =
      rec_user_id example_record.
Proof.
  apply (edit_record_then_get_record example_validate 1 plain_post great_review
           (logged_in bob) bob example_record); try reflexivity.
  discriminate.
Defined.

(** Alice edits her record with the review ["great"]; the record page
    shows it, with the notes, the flag and the status as submitted. *)
Lemma edit_record_overwrites_fields_witness :
  exists st',
    example_edit_record 1 plain_post great_review (logged_in alice) =
      (inr (redirect ("/records/" ++ py_str_int 1)), st') /\
    db st' =
      update_record
        (mkRecords (Some 1) (Some 1) 1 (PStr "finished on UV") (PStr "great")
           (PBool true) (PStr "Completed")) (db (logged_in alice)) /\
    get_record 1 st' =
      (inr (render_template "record.html"
              [("record",
                CRecord (mkRecords (Some 1) (Some 1) 1 (PStr "finished on UV")
                           (PStr "great") (PBool true) (PStr "Completed")))]),
       st').
Proof.
  exact (edit_record_overwrites_fields example_validate 1 plain_post great_review
           (logged_in alice) alice example_record eq_refl eq_refl eq_refl).
Defined.

Lemma edit_record_not_validated_witness :
  example_edit_record 1 plain_get great_review (logged_in alice) =
    (inr (render_template "record_edit.html"
            [("form", CForm); ("record", CRecord example_record)]), logged_in alice).
Proof.
  apply (edit_record_not_validated example_validate 1 plain_get great_review
           (logged_in alice) alice example_record); reflexivity.
Defined.

Lemma add_mod_twice_witness :
  exists st1,
    add_mod (json_post other_mod_json) (logged_in alice) =
      (inr (jsonify [("status", PStr "Pulled!");
                     ("mod_id", PInt (next_mod_id (db (logged_in alice))))]), st1) /\
    add_mod (json_post other_mod_json) st1 =
      (inr (jsonify [("status", PStr "Already pulled.");
                     ("mod_id", PInt (next_mod_id (db (logged_in alice))))]), st1) /\
    query_count (mod_has_file_id (PInt 43)) (mods (db st1)) = 1%nat.
Proof.
  apply (add_mod_twice (json_post other_mod_json) (logged_in alice) alice
           [("id", PInt 43); ("dir", PStr "themes/"); ("title", PStr "Y");
            ("url", PStr "v"); ("description", PStr "e"); ("date", PStr "2021");
            ("author", PStr "b"); ("rating", PInt 4); ("votes", PInt 12)]
           "themes/" (PInt 43)); reflexivity.
Defined.
